(** * Snacks Fund dashboard: the reporting logic of [snacks_fund_app.py]

    The dashboard reads a spreadsheet of contributions and expenses, shows
    summary metrics and charts, and a transaction table narrowed by three
    filters.  This file embeds the script's load, aggregate and filter steps
    and the page it renders, and proves the properties of the written
    specification against them.

    Conventions of the embedding:
    - monetary amounts are whole numbers held in int64 columns: a column sum
      is taken in int64 arithmetic and wraps around outside the 64-bit
      signed range; columns of fractions are not covered;
    - no cell of a required column is blank: every row has a date, a
      contributor name and its three amounts;
    - a spreadsheet file is a table, its column names and its rows, with
      date-times kept to the millisecond, as the workbook format keeps
      them; names and amounts are kept as they are;
    - the five required columns of a row are typed fields; other columns of
      a sheet are kept by name only, the script never reads them, and the
      fields of a column that the sheet lacks are never read either;
    - a cell of the [Date] column of a sheet is either a date-time or a text
      still to be parsed; after [pd.to_datetime] every cell is a date-time;
    - the page is the list of the elements the script renders, in order;
      layout columns, number formats and the icon of the title are left out;
    - a user may pick any date in a date input and any position in a select
      box. *)

From Stdlib Require Import ZArith List String Bool Lia.
From stdpp Require Import base gmap strings list sorting.
Import ListNotations.
Open Scope string_scope.
Open Scope list_scope.
Open Scope Z_scope.

(** ** Calendar dates and time stamps *)

(** [datetime.date]: compared as the triple (year, month, day). *)
Record date := mkdate { year : Z; month : Z; day : Z }.

Definition date_compare (a b : date) : comparison :=
  match year a ?= year b with
  | Eq => match month a ?= month b with
          | Eq => day a ?= day b
          | c => c
          end
  | c => c
  end.

Definition date_le (a b : date) : bool :=
  match date_compare a b with Gt => false | _ => true end.

Definition date_ge (a b : date) : bool := date_le b a.

(** [pandas.Timestamp]: a calendar date and the time of day in nanoseconds. *)
Record Timestamp := mkstamp { ts_date : date; ts_time : Z }.

Definition Timestamp_compare (a b : Timestamp) : comparison :=
  match date_compare (ts_date a) (ts_date b) with
  | Eq => ts_time a ?= ts_time b
  | c => c
  end.

Definition Timestamp_le (a b : Timestamp) : bool :=
  match Timestamp_compare a b with Gt => false | _ => true end.

(** A calendar month is named by the number of months since year 0. *)
Definition month_index (d : date) : Z := year d * 12 + (month d - 1).

Definition valid_date (d : date) : Prop := 1 <= month d <= 12 /\ 1 <= day d <= 31.

(** The calendar: leap years, the length of a month, the day after a day. *)
Definition leap_year (y : Z) : bool :=
  (y mod 4 =? 0) && (negb (y mod 100 =? 0) || (y mod 400 =? 0)).

Definition days_in_month (y m : Z) : Z :=
  if m =? 2 then (if leap_year y then 29 else 28)
  else if (m =? 4) || (m =? 6) || (m =? 9) || (m =? 11) then 30
  else 31.

Definition next_day (d : date) : date :=
  if day d <? days_in_month (year d) (month d) then mkdate (year d) (month d) (day d + 1)
  else if month d <? 12 then mkdate (year d) (month d + 1) 1
  else mkdate (year d + 1) 1 1.

(** A workbook keeps the time of a date-time to the millisecond: writing a
    date-time and reading it back gives the nearest millisecond, which for
    the last half millisecond of a day is midnight of the next day.  (A
    time exactly between two milliseconds is taken up here; no property
    below rests on that choice.) *)
Definition milliseconds_per_day : Z := 86400000.

Definition nanoseconds_per_millisecond : Z := 1000000.

Definition round_to_millisecond (t : Timestamp) : Timestamp :=
  let ms := (ts_time t + nanoseconds_per_millisecond / 2) / nanoseconds_per_millisecond in
  if ms <? milliseconds_per_day then mkstamp (ts_date t) (ms * nanoseconds_per_millisecond)
  else mkstamp (next_day (ts_date t)) 0.


(** ** Amounts *)

(** The amount columns of a workbook of whole numbers are int64 columns:
    a value lies in the 64-bit signed range, and arithmetic that leaves the
    range wraps around. *)
Definition int64 (z : Z) : Prop := - 2 ^ 63 <= z < 2 ^ 63.

Definition wrap64 (z : Z) : Z := (z + 2 ^ 63) mod 2 ^ 64 - 2 ^ 63.

(** ** Tables *)

Record Row (D : Type) := mkRow {
  Date : D;
  Contributors : string;
  Spend : Z;
  Contribution : Z;
  Balance : Z
}.
Arguments mkRow {D} _ _ _ _ _.
Arguments Date {D} _.
Arguments Contributors {D} _.
Arguments Spend {D} _.
Arguments Contribution {D} _.
Arguments Balance {D} _.

Record Frame (D : Type) := mkFrame {
  columns : list string;
  rows : list (Row D)
}.
Arguments mkFrame {D} _ _.
Arguments columns {D} _.
Arguments rows {D} _.

(** A cell of the [Date] column as [read_excel] returns it. *)
Inductive DateCell :=
| Stamp (t : Timestamp)
| Text (s : string).

(** The table held by a spreadsheet file, and the table after the [Date]
    column has been converted. *)
Abbreviation Sheet := (Frame DateCell).
Abbreviation DataFrame := (Frame Timestamp).

Definition with_rows {D E} (df : Frame D) (rs : list (Row E)) : Frame E :=
  mkFrame (columns df) rs.

Definition set_Date {D E} (r : Row D) (d : E) : Row E :=
  mkRow d (Contributors r) (Spend r) (Contribution r) (Balance r).

(** ** Exceptions and results *)

Inductive Exception :=
| ParserError (text : string)
| IndexError
| FileNotFoundError
| NaTValue (widget : string).

Inductive Outcome (A : Type) :=
| Returned (a : A)
| Raised (e : Exception).
Arguments Returned {A} _.
Arguments Raised {A} _.

(** ** The pandas operations the script calls *)

Module pd.

(** [df.empty]: some axis has length 0. *)
Definition empty {D} (df : Frame D) : bool :=
  (Nat.eqb (length (columns df)) 0 || Nat.eqb (length (rows df)) 0)%bool.

(** [col in df.columns] *)
Definition has_column {D} (df : Frame D) (col : string) : bool :=
  existsb (String.eqb col) (columns df).

(** [series.sum()] of an int64 column: the accumulation starts at 0 and runs
    down the column in an int64, so an overflow wraps around. *)
Definition sum (s : list Z) : Z := fold_left (fun acc x => wrap64 (acc + x)) s 0.

(** [series.iloc[i]]: a negative position counts from the end, a position
    outside the column raises. *)
Definition iloc {A} (s : list A) (i : Z) : Outcome A :=
  let n := Z.of_nat (length s) in
  let j := if i <? 0 then n + i else i in
  if (j <? 0) || (n <=? j) then Raised IndexError
  else match nth_error s (Z.to_nat j) with
       | Some a => Returned a
       | None => Raised IndexError
       end.

(** [series.min()] and [series.max()] of a date-time column; [None] is
    [NaT], the answer for a column without rows. *)
Definition min (s : list Timestamp) : option Timestamp :=
  match s with
  | [] => None
  | t :: s' => Some (fold_left (fun m x => if Timestamp_le x m then x else m) s' t)
  end.

Definition max (s : list Timestamp) : option Timestamp :=
  match s with
  | [] => None
  | t :: s' => Some (fold_left (fun m x => if Timestamp_le m x then x else m) s' t)
  end.

(** [series.unique()]: the values in order of first appearance. *)
Fixpoint unique (s : list string) : list string :=
  match s with
  | [] => []
  | x :: s' => x :: List.filter (fun y => negb (String.eqb y x)) (unique s')
  end.

(** [series.nunique()] *)
Definition nunique (s : list string) : nat := length (unique s).

(** [pd.to_datetime(series)]: a date-time cell is kept, a text is parsed;
    one text that does not parse fails the whole conversion. *)
Definition to_datetime_cell (parse : string -> option Timestamp) (c : DateCell)
  : Outcome Timestamp :=
  match c with
  | Stamp t => Returned t
  | Text s => match parse s with
              | Some t => Returned t
              | None => Raised (ParserError s)
              end
  end.

Fixpoint to_datetime (parse : string -> option Timestamp) (s : list DateCell)
  : Outcome (list Timestamp) :=
  match s with
  | [] => Returned []
  | c :: s' =>
      match to_datetime_cell parse c with
      | Raised e => Raised e
      | Returned t =>
          match to_datetime parse s' with
          | Raised e => Raised e
          | Returned ts => Returned (t :: ts)
          end
      end
  end.

(** [df['Date'] = series]: the column is replaced row by row. *)
Definition assign_Date {D E} (df : Frame D) (s : list E) : Frame E :=
  with_rows df (map (fun rd => set_Date (fst rd) (snd rd)) (combine (rows df) s)).

(** [df[mask]]: the rows where the mask holds, in source order. *)
Definition mask {D} (m : Row D -> bool) (df : Frame D) : Frame D :=
  with_rows df (List.filter m (rows df)).

(** Python's order on strings. *)
Definition string_le (a b : string) : Prop := String.leb a b = true.

#[global] Instance string_le_dec : RelDecision string_le :=
  fun a b => decide (String.leb a b = true).

(** [sorted(list)] *)
Definition sorted (l : list string) : list string := merge_sort string_le l.

(** [df.groupby(key)[val].sum().reset_index()]: one row per distinct key,
    the keys in ascending order, each with the sum of its group. *)
Definition groupby_sum {D} (key : Row D -> string) (val : Row D -> Z)
    (rs : list (Row D)) : list (string * Z) :=
  map (fun k => (k, sum (map val (List.filter (fun r => String.eqb (key r) k) rs))))
      (sorted (unique (map key rs))).

(** [table.sort_values(val, ascending=False)] *)
Definition value_ge (a b : string * Z) : Prop := snd b <= snd a.

#[global] Instance value_ge_dec : RelDecision value_ge :=
  fun a b => decide (snd b <= snd a).

Fixpoint insert_descending (x : string * Z) (t : list (string * Z))
  : list (string * Z) :=
  match t with
  | [] => [x]
  | y :: t' => if snd y <=? snd x then x :: y :: t' else y :: insert_descending x t'
  end.

(** The larger values first; rows of equal value keep the order they have
    in the table. *)
Definition sort_values_descending (t : list (string * Z)) : list (string * Z) :=
  fold_right insert_descending [] t.

(** A row of [df.resample('M', on='Date').agg({'Contribution': 'sum',
    'Spend': 'sum'}).reset_index()]. *)
Record MonthRow := mkMonthRow {
  Month : Z;
  month_Contribution : Z;
  month_Spend : Z
}.

(** Monthly bins: resampling lays one bin on every calendar month from
    the month of the earliest date to the month of the latest one, and
    sums the rows that fall in each bin. *)
Definition resample_M_sum (rs : list (Row Timestamp)) : list MonthRow :=
  match min (map Date rs), max (map Date rs) with
  | Some lo, Some hi =>
      let first := month_index (ts_date lo) in
      let last := month_index (ts_date hi) in
      map (fun m =>
             let bin := List.filter
                          (fun r => month_index (ts_date (Date r)) =? m) rs in
             mkMonthRow m (sum (map Contribution bin)) (sum (map Spend bin)))
          (seqZ first (last - first + 1))
  | _, _ => []
  end.

End pd.

(** ** Files *)

(** A path is a directory and a file name. *)
Definition path : Type := string * string.

Module os_path.
Definition join (dir name : string) : path := (dir, name).
Definition dirname (p : path) : string := fst p.
(** The path as a message shows it, with the separator of POSIX, for a
    directory that is not empty and does not end in a separator. *)
Definition show (p : path) : string := fst p ++ "/" ++ snd p.
End os_path.

(** ** The page *)

Inductive Figure :=
| px_line (points : list (Timestamp * Z))
| px_bar (bars : list (string * Z))
| go_bars (monthly : list pd.MonthRow)
| px_pie (values : list Z) (names : list string).

Module st.
Inductive Element :=
| error (body : string)
| info (body : string)
| success (body : string)
| title (body : string)
| markdown (body : string)
| subheader (body : string)
| metric (label : string) (value : Z)
| plotly_chart (fig : Figure)
| dataframe (data : DataFrame).
End st.

(** ** Scripts: rendering, files and exceptions *)

Record Result (A : Type) := mkResult {
  outcome : Outcome A;
  rendered : list st.Element;
  files_after : gmap path Sheet
}.
Arguments mkResult {A} _ _ _.
Arguments outcome {A} _.
Arguments rendered {A} _.
Arguments files_after {A} _.

Definition Script (A : Type) : Type := gmap path Sheet -> Result A.

Definition ret {A} (a : A) : Script A := fun fs => mkResult (Returned a) [] fs.

Definition raise {A} (e : Exception) : Script A := fun fs => mkResult (Raised e) [] fs.

Definition bind {A B} (m : Script A) (k : A -> Script B) : Script B :=
  fun fs =>
    let r := m fs in
    match outcome r with
    | Returned a =>
        let r' := k a (files_after r) in
        mkResult (outcome r') (rendered r ++ rendered r') (files_after r')
    | Raised e => mkResult (Raised e) (rendered r) (files_after r)
    end.

(** [try: body except Exception as e: handler] *)
Definition try_except {A} (body : Script A) (handler : Exception -> Script A) : Script A :=
  fun fs =>
    let r := body fs in
    match outcome r with
    | Returned a => r
    | Raised e =>
        let r' := handler e (files_after r) in
        mkResult (outcome r') (rendered r ++ rendered r') (files_after r')
    end.

(** A result with a page put in front of what it rendered. *)
Definition prepend {A} (page : list st.Element) (r : Result A) : Result A :=
  mkResult (outcome r) (page ++ rendered r) (files_after r).

Definition lift {A} (o : Outcome A) : Script A :=
  match o with
  | Returned a => ret a
  | Raised e => raise e
  end.

Definition render (e : st.Element) : Script unit :=
  fun fs => mkResult (Returned tt) [e] fs.

Notation "'do' x <- m ; k" := (bind m (fun x => k))
  (at level 10, x name, m at level 100, k at level 200).
Notation "'run' m ; k" := (bind m (fun _ => k))
  (at level 10, m at level 100, k at level 200).

(** [os.path.exists(path)] *)
Definition exists_ (p : path) : Script bool :=
  fun fs => mkResult (Returned (bool_decide (is_Some (fs !! p)))) [] fs.

(** [pd.read_excel(path)] *)
Definition read_excel (p : path) : Script Sheet :=
  fun fs =>
    match fs !! p with
    | Some sheet => mkResult (Returned sheet) [] fs
    | None => mkResult (Raised FileNotFoundError) [] fs
    end.

(** The sheet that holds a table: its date-times are date-time cells, kept
    to the millisecond. *)
Definition written_sheet (df : DataFrame) : Sheet :=
  with_rows df (map (fun r => set_Date r (Stamp (round_to_millisecond (Date r)))) (rows df)).

(** [df.to_excel(path, index=False)]: the file is written fresh, with the
    columns and the rows of the table and no index column. *)
Definition to_excel (df : DataFrame) (p : path) : Script unit :=
  fun fs => mkResult (Returned tt) [] (<[p := written_sheet df]> fs).

(** ** Widgets *)

(** What the user does on the page: a date picked in a date input, the
    position picked in a select box, a click on the export button.  [None]
    leaves a widget at its default. *)
Record User := mkUser {
  start_date_pick : option date;
  end_date_pick : option date;
  contributor_pick : option nat;
  transaction_type_pick : option nat;
  export_click : bool
}.

Definition untouched : User := mkUser None None None None false.

(** [st.date_input(label, value)]: the default value has to be a date;
    [NaT] is none. *)
Definition date_input (label : string) (value : option date) (pick : option date)
  : Script date :=
  match value with
  | None => raise (NaTValue label)
  | Some d => ret (default d pick)
  end.

(** [st.selectbox(label, options)]: the first option unless another one is
    picked. *)
Definition selectbox (options : list string) (pick : option nat) : string :=
  let first := hd "" options in
  match pick with
  | None => first
  | Some i => nth i options first
  end.

(** ** Reading a page *)

(** The values of the metrics shown under a label. *)
Fixpoint metric_values (label : string) (page : list st.Element) : list Z :=
  match page with
  | [] => []
  | st.metric l v :: page' =>
      if String.eqb l label then v :: metric_values label page'
      else metric_values label page'
  | _ :: page' => metric_values label page'
  end.

(** The tables shown. *)
Fixpoint shown_tables (page : list st.Element) : list DataFrame :=
  match page with
  | [] => []
  | st.dataframe t :: page' => t :: shown_tables page'
  | _ :: page' => shown_tables page'
  end.

(** The error messages shown. *)
Fixpoint shown_errors (page : list st.Element) : list string :=
  match page with
  | [] => []
  | st.error m :: page' => m :: shown_errors page'
  | _ :: page' => shown_errors page'
  end.

(** ** The vocabulary of the specification *)

(** Sum of a field over all rows of a ledger. *)
Fixpoint sum_over {D} (field : Row D -> Z) (ledger : list (Row D)) : Z :=
  match ledger with
  | [] => 0
  | r :: ledger' => field r + sum_over field ledger'
  end.

(** [balance] of the last row in source order; 0 for the empty ledger. *)
Definition balance_of_last_row {D} (ledger : list (Row D)) : Z :=
  match last ledger with
  | Some r => Balance r
  | None => 0
  end.

(** The first required column that the sheet lacks. *)
Definition first_missing {D} (df : Frame D) (cols : list string) : option string :=
  List.find (fun col => negb (pd.has_column df col)) cols.

(** A message names a field when the field's name occurs in it. *)
Fixpoint mentions (name message : string) : bool :=
  String.prefix name message ||
  match message with
  | EmptyString => false
  | String _ message' => mentions name message'
  end.

(** The calendar month a row falls in. *)
Definition month_of (r : Row Timestamp) : Z := month_index (ts_date (Date r)).

(** The rows of a ledger that fall in a month. *)
Definition in_month (m : Z) (ledger : list (Row Timestamp)) : list (Row Timestamp) :=
  List.filter (fun r => month_of r =? m) ledger.

(** A row passes a filter specification: its date lies in the range, both
    ends included; its contributor is the selected one unless the selection
    is "All"; its contribution, or its spend, is positive when the
    transaction type asks for it. *)
Definition passes (start_date end_date : date) (contributor transaction_type : string)
    (r : Row Timestamp) : Prop :=
  (date_le start_date (ts_date (Date r)) = true /\
   date_le (ts_date (Date r)) end_date = true) /\
  (contributor <> "All" -> Contributors r = contributor) /\
  (transaction_type = "Contribution" -> 0 < Contribution r) /\
  (transaction_type = "Spending" -> 0 < Spend r).

(** The same as a test on the row. *)
Definition passesb (start_date end_date : date) (contributor transaction_type : string)
    (r : Row Timestamp) : bool :=
  date_le start_date (ts_date (Date r)) && date_le (ts_date (Date r)) end_date
  && (String.eqb contributor "All" || String.eqb (Contributors r) contributor)
  && (negb (String.eqb transaction_type "Contribution") || (0 <? Contribution r))
  && (negb (String.eqb transaction_type "Spending") || (0 <? Spend r)).





(** Every amount of the table is an int64 value. *)
Definition int64_amounts {D} (df : Frame D) : Prop :=
  Forall (fun r => int64 (Spend r) /\ int64 (Contribution r) /\ int64 (Balance r))
    (rows df).

(** A field adds up inside the int64 range: no row holds a negative value
    and the sum over all rows is below 2^63, so no partial sum wraps. *)
Definition adds_up_in_int64 {D} (field : Row D -> Z) (ledger : list (Row D)) : Prop :=
  Forall (fun r => 0 <= field r) ledger /\ sum_over field ledger < 2 ^ 63.

(** Sum of a value over the entries of a table. *)
Fixpoint sum_of {A} (value : A -> Z) (table : list A) : Z :=
  match table with
  | [] => 0
  | a :: table' => value a + sum_of value table'
  end.

(** ** The script *)

Section App.

(** The date parser of pandas and the message text of an exception belong
    to the libraries. *)
Variable parse_datetime : string -> option Timestamp.
Variable str : Exception -> string.

(** Directory of the script, and whether Python runs interactively
    ([sys.ps1] is set). *)
Variable script_dir : string.
Variable interactive : bool.

Definition wait_for_exit : Script unit :=
  if negb interactive then render (st.info "Press Enter to exit...")
  else ret tt.

Definition required_columns : list string :=
  ["Date"; "Contributors"; "Spend"; "Contribution"; "Balance"].

(** The loop over [required_columns]; [false] when the script has shown
    an error and returns. *)
Fixpoint check_columns (df : Sheet) (cols : list string) : Script bool :=
  match cols with
  | [] => ret true
  | col :: cols' =>
      if negb (pd.has_column df col) then
        run render (st.error ("Required column '" ++ col ++ "' not found in Excel file"));
        run wait_for_exit;
        ret false
      else check_columns df cols'
  end.

Definition total_contributions (df : DataFrame) : Z :=
  pd.sum (map Contribution (rows df)).

Definition total_spending (df : DataFrame) : Z :=
  pd.sum (map Spend (rows df)).

Definition current_balance (df : DataFrame) : Outcome Z :=
  if negb (pd.empty df) then pd.iloc (map Balance (rows df)) (-1)
  else Returned 0.

Definition valid_contributors (df : DataFrame) : nat :=
  pd.nunique (map Contributors (rows (pd.mask (fun r => 0 <? Contribution r) df))).

Definition display_summary_metrics (df : DataFrame) : Script unit :=
  run render (st.metric "Total Contributions" (total_contributions df));
  run render (st.metric "Total Spending" (total_spending df));
  do balance <- lift (current_balance df);
  run render (st.metric "Current Balance" balance);
  render (st.metric "Number of Contributors" (Z.of_nat (valid_contributors df))).

Definition contrib_by_person (df : DataFrame) : list (string * Z) :=
  let by_person :=
    pd.groupby_sum Contributors Contribution
      (rows (pd.mask (fun r => 0 <? Contribution r) df)) in
  List.filter (fun kv => 0 <? snd kv) by_person.

Definition monthly_data (df : DataFrame) : list pd.MonthRow :=
  pd.resample_M_sum (rows df).

Definition min_date (df : DataFrame) : option date :=
  ts_date <$> pd.min (map Date (rows df)).

Definition max_date (df : DataFrame) : option date :=
  ts_date <$> pd.max (map Date (rows df)).

(** Line 93, on a ledger of complete rows: every contributor is a name.
    (On a blank cell [sorted] would raise.) *)
Definition contributors (df : DataFrame) : list string :=
  "All" :: pd.sorted (pd.unique (map Contributors (rows df))).

Definition transaction_types : list string := ["All"; "Contribution"; "Spending"].

(** The three narrowing steps, in the order of the script. *)
Definition filtered_df (df : DataFrame) (start_date end_date : date)
    (selected_contributor transaction_type : string) : DataFrame :=
  let filtered := df in
  let filtered :=
    pd.mask (fun r => date_ge (ts_date (Date r)) start_date
                      && date_le (ts_date (Date r)) end_date) filtered in
  let filtered :=
    if negb (String.eqb selected_contributor "All") then
      pd.mask (fun r => String.eqb (Contributors r) selected_contributor) filtered
    else filtered in
  if String.eqb transaction_type "Contribution" then
    pd.mask (fun r => 0 <? Contribution r) filtered
  else if String.eqb transaction_type "Spending" then
    pd.mask (fun r => 0 <? Spend r) filtered
  else filtered.

Definition file_path : path := os_path.join script_dir "Snacks_Fund.xlsx".

Definition export_path : path :=
  os_path.join (os_path.dirname file_path) "exported_fund_data.xlsx".

(** The loader, lines 25-36 of [main]: the table of the file, its required
    columns checked, its dates converted.  [None] when the script has
    shown which column is missing and returns. *)
Definition load (p : path) : Script (option DataFrame) :=
  do df <- read_excel p;
  do complete <- check_columns df required_columns;
  if negb complete then ret None
  else
    do dates <- lift (pd.to_datetime parse_datetime (map Date (rows df)));
    ret (Some (pd.assign_Date df dates)).

(** The page below the loader, lines 38-123 of [main]. *)
Definition dashboard (df : DataFrame) (user : User) : Script unit :=
  run render (st.title "Snacks Fund Dashboard");
  run render (st.markdown "### Fund Performance and Management Overview");
  run display_summary_metrics df;
  run render (st.subheader "Balance Over Time");
  run render (st.plotly_chart
                (px_line (map (fun r => (Date r, Balance r)) (rows df))));
  run render (st.subheader "Contributions by Contributor");
  run render (st.plotly_chart (px_bar (contrib_by_person df)));
  run render (st.subheader "Contributions vs Spending");
  run render (st.plotly_chart (go_bars (monthly_data df)));
  run render (st.subheader "Total Spending vs Contributions");
  let total_contrib := pd.sum (map Contribution (rows df)) in
  let total_spend := pd.sum (map Spend (rows df)) in
  run render (st.plotly_chart
                (px_pie [total_contrib; total_spend] ["Contributions"; "Spending"]));
  run render (st.subheader "Transaction Details");
  do start_date <- date_input "Start Date" (min_date df) (start_date_pick user);
  do end_date <- date_input "End Date" (max_date df) (end_date_pick user);
  let selected_contributor := selectbox (contributors df) (contributor_pick user) in
  let transaction_type := selectbox transaction_types (transaction_type_pick user) in
  let filtered := filtered_df df start_date end_date selected_contributor transaction_type in
  run render (st.dataframe filtered);
  if export_click user then
    run to_excel filtered export_path;
    render (st.success ("Data exported to " ++ os_path.show export_path))
  else ret tt.

Definition main (user : User) : Script unit :=
  do found <- exists_ file_path;
  if negb found then
    run render (st.error ("Excel file not found at: " ++ os_path.show file_path));
    run render (st.info "Please ensure the Excel file exists at the specified location.");
    wait_for_exit
  else
    try_except
      (do loaded <- load file_path;
       match loaded with
       | None => ret tt
       | Some df => dashboard df user
       end)
      (fun e =>
         run render (st.error ("Error: " ++ str e));
         wait_for_exit).

(** *** The pages of a run *)

(** The closing notice of [wait_for_exit]. *)
Definition exit_notice : list st.Element :=
  if interactive then [] else [st.info "Press Enter to exit..."].

Definition missing_column_page (col : string) : list st.Element :=
  st.error ("Required column '" ++ col ++ "' not found in Excel file") :: exit_notice.

(** The page down to the heading of the transaction table. *)
Definition upper_page (df : DataFrame) (balance : Z) : list st.Element :=
  [ st.title "Snacks Fund Dashboard";
    st.markdown "### Fund Performance and Management Overview";
    st.metric "Total Contributions" (total_contributions df);
    st.metric "Total Spending" (total_spending df);
    st.metric "Current Balance" balance;
    st.metric "Number of Contributors" (Z.of_nat (valid_contributors df));
    st.subheader "Balance Over Time";
    st.plotly_chart (px_line (map (fun r => (Date r, Balance r)) (rows df)));
    st.subheader "Contributions by Contributor";
    st.plotly_chart (px_bar (contrib_by_person df));
    st.subheader "Contributions vs Spending";
    st.plotly_chart (go_bars (monthly_data df));
    st.subheader "Total Spending vs Contributions";
    st.plotly_chart
      (px_pie [total_contributions df; total_spending df] ["Contributions"; "Spending"]);
    st.subheader "Transaction Details" ].

(** The balance the metric shows. *)
Definition shown_balance (df : DataFrame) : Z :=
  if pd.empty df then 0 else balance_of_last_row (rows df).

(** The filter the widgets describe. *)
Definition view_of (df : DataFrame) (user : User) (lo hi : date) : DataFrame :=
  filtered_df df (default lo (start_date_pick user)) (default hi (end_date_pick user))
    (selectbox (contributors df) (contributor_pick user))
    (selectbox transaction_types (transaction_type_pick user)).


(** The handler of [main]: the message of the exception, then the notice. *)
Definition failure_page (e : Exception) : list st.Element :=
  st.error ("Error: " ++ str e) :: exit_notice.

End App.

(** Every required column that the sheet lacks is named by an error message
    of the page. *)
Definition names_every_missing_column (sheet : Sheet) (page : list st.Element) : Prop :=
  forall col, In col required_columns -> pd.has_column sheet col = false ->
    exists message, In message (shown_errors page) /\ mentions col message = true.


(** ** The variant written out by [fund-dashboard-launcher.py] *)

Module Launcher.

Definition num_contributors (df : DataFrame) : nat :=
  pd.nunique (map Contributors (rows df)).

Definition contrib_by_person (df : DataFrame) : list (string * Z) :=
  let by_person := pd.groupby_sum Contributors Contribution (rows df) in
  pd.sort_values_descending by_person.

(** The script the launcher writes to [snacks_fund_app.py], lines 15-152 of
    [fund-dashboard-launcher.py].  It reads the workbook from a fixed
    folder, and where the dashboard returns it calls [st.stop()], which ends
    the run on the spot: the stop is no [Exception], the handler of the
    script does not see it. *)

Definition folder : string := "C:\Users\Navneet Chaudhary\Desktop\Fund".

Definition file_path : path := (folder, "Snacks_Fund.xlsx").

Definition export_path : path :=
  os_path.join (os_path.dirname file_path) "exported_fund_data.xlsx".

(** Paths of this folder are shown with the separator of Windows. *)
Definition separator : string := String (Ascii.ascii_of_nat 92) EmptyString.

Definition show (p : path) : string := fst p ++ separator ++ snd p.

Section Script.

Variable parse_datetime : string -> option Timestamp.
Variable str : Exception -> string.

(** The loop over the required columns; [false] when the script has shown
    an error and stopped. *)
Fixpoint check_columns (df : Sheet) (cols : list string) : Script bool :=
  match cols with
  | [] => ret true
  | col :: cols' =>
      if negb (pd.has_column df col) then
        run render (st.error ("Required column '" ++ col ++ "' not found in Excel file"));
        ret false
      else check_columns df cols'
  end.

(** The page from the title on, lines 48-149. *)
Definition page (df : DataFrame) (user : User) : Script unit :=
  run render (st.title "Snacks Fund Dashboard");
  run render (st.markdown "### Fund Performance and Management Overview");
  run render (st.metric "Total Contributions" (pd.sum (map Contribution (rows df))));
  run render (st.metric "Total Spending" (pd.sum (map Spend (rows df))));
  do balance <- lift (if negb (pd.empty df) then pd.iloc (map Balance (rows df)) (-1)
                      else Returned 0);
  run render (st.metric "Current Balance" balance);
  run render (st.metric "Number of Contributors" (Z.of_nat (num_contributors df)));
  run render (st.subheader "Balance Over Time");
  run render (st.plotly_chart
                (px_line (map (fun r => (Date r, Balance r)) (rows df))));
  run render (st.subheader "Contributions by Contributor");
  run render (st.plotly_chart (px_bar (contrib_by_person df)));
  run render (st.subheader "Contributions vs Spending");
  run render (st.plotly_chart (go_bars (pd.resample_M_sum (rows df))));
  run render (st.subheader "Total Spending vs Contributions");
  let total_contrib := pd.sum (map Contribution (rows df)) in
  let total_spend := pd.sum (map Spend (rows df)) in
  run render (st.plotly_chart
                (px_pie [total_contrib; total_spend] ["Contributions"; "Spending"]));
  run render (st.subheader "Transaction Details");
  do start_date <- date_input "Start Date" (min_date df) (start_date_pick user);
  do end_date <- date_input "End Date" (max_date df) (end_date_pick user);
  let selected_contributor := selectbox (contributors df) (contributor_pick user) in
  let transaction_type := selectbox transaction_types (transaction_type_pick user) in
  let filtered := filtered_df df start_date end_date selected_contributor transaction_type in
  run render (st.dataframe filtered);
  if export_click user then
    run to_excel filtered export_path;
    render (st.success ("Data exported to " ++ show export_path))
  else ret tt.

Definition script (user : User) : Script unit :=
  do found <- exists_ file_path;
  if negb found then
    run render (st.error ("Excel file not found at: " ++ show file_path));
    render (st.info "Please ensure the Excel file exists at the specified location.")
  else
    try_except
      (do df <- read_excel file_path;
       do complete <- check_columns df required_columns;
       if negb complete then ret tt
       else
         do dates <- lift (pd.to_datetime parse_datetime (map Date (rows df)));
         page (pd.assign_Date df dates) user)
      (fun e => render (st.error ("Error: " ++ str e))).

(** The page of the launcher's script down to the heading of the table. *)
Definition upper_page (df : DataFrame) (balance : Z) : list st.Element :=
  [ st.title "Snacks Fund Dashboard";
    st.markdown "### Fund Performance and Management Overview";
    st.metric "Total Contributions" (total_contributions df);
    st.metric "Total Spending" (total_spending df);
    st.metric "Current Balance" balance;
    st.metric "Number of Contributors" (Z.of_nat (num_contributors df));
    st.subheader "Balance Over Time";
    st.plotly_chart (px_line (map (fun r => (Date r, Balance r)) (rows df)));
    st.subheader "Contributions by Contributor";
    st.plotly_chart (px_bar (contrib_by_person df));
    st.subheader "Contributions vs Spending";
    st.plotly_chart (go_bars (monthly_data df));
    st.subheader "Total Spending vs Contributions";
    st.plotly_chart
      (px_pie [total_contributions df; total_spending df] ["Contributions"; "Spending"]);
    st.subheader "Transaction Details" ].

End Script.

End Launcher.


(** ** Ledgers and sheets used as examples *)

Definition midnight (y m d : Z) : Timestamp := mkstamp (mkdate y m d) 0.

(** The example scenario of the specification. *)
Definition scenario : DataFrame :=
  mkFrame required_columns
    [ mkRow (midnight 2024 1 1) "Alice" 0 100 100;
      mkRow (midnight 2024 1 15) "Bob" 30 0 70 ].

(** Two contributors; the one later in the alphabet gave more. *)
Definition two_givers : DataFrame :=
  mkFrame required_columns
    [ mkRow (midnight 2024 1 1) "Alice" 0 100 100;
      mkRow (midnight 2024 1 2) "Bob" 0 200 300 ].

(** Two contributions of 2^62 each: their sum is 2^63, one more than the
    largest int64. *)
Definition two_large_contributions : DataFrame :=
  mkFrame required_columns
    [ mkRow (midnight 2024 1 1) "Alice" 0 (2 ^ 62) 100;
      mkRow (midnight 2024 1 2) "Bob" 0 (2 ^ 62) 200 ].

(** Transactions in January and in March, none in February. *)
Definition with_a_gap : DataFrame :=
  mkFrame required_columns
    [ mkRow (midnight 2024 1 10) "Alice" 0 100 100;
      mkRow (midnight 2024 3 5) "Bob" 30 0 70 ].

(** A sheet that lacks the [Date] and the [Balance] column. *)
Definition sheet_without_Date_and_Balance : Sheet :=
  mkFrame ["Contributors"; "Spend"; "Contribution"] [].

(** A sheet that lacks the [Balance] column only. *)
Definition sheet_without_Balance : Sheet :=
  mkFrame ["Date"; "Contributors"; "Spend"; "Contribution"] [].

(** A sheet with every required column and no row. *)
Definition sheet_without_rows : Sheet := mkFrame required_columns [].

(** A parser that accepts no text, and exceptions shown by their class. *)
Definition no_parser (text : string) : option Timestamp := None.

Definition class_name (e : Exception) : string :=
  match e with
  | ParserError _ => "ParserError"
  | IndexError => "IndexError"
  | FileNotFoundError => "FileNotFoundError"
  | NaTValue _ => "NaTValue"
  end.

(** The files of a directory that holds one sheet as the fund's workbook. *)
Definition workbook (dir : string) (sheet : Sheet) : gmap path Sheet :=
  {[ file_path dir := sheet ]}.

(** A user who selects Bob, then "Spending", and exports; and the view this
    gives on the scenario. *)
Definition exporting_user : User := mkUser None None (Some 2%nat) (Some 2%nat) true.


(** A sheet whose second date is a text. *)
Definition sheet_with_a_text_date : Sheet :=
  mkFrame required_columns
    [ mkRow (Stamp (midnight 2024 1 1)) "Alice" 0 100 100;
      mkRow (Text "soon") "Bob" 30 0 70 ].

(** The files of the launcher's folder when it holds one sheet as the
    workbook. *)
Definition launcher_workbook (sheet : Sheet) : gmap path Sheet :=
  {[ Launcher.file_path := sheet ]}.






(** A month has a row in the monthly table only if a transaction falls in
    it. *)
Definition only_months_with_transactions (df : DataFrame) : Prop :=
  forall m, In m (map pd.Month (monthly_data df)) ->
    exists r, In r (rows df) /\ month_of r = m.

(** * Properties *)

(** ** The order on dates *)

Section DateOrder.

Lemma date_compare_refl a : date_compare a a = Eq.
Proof. unfold date_compare. now rewrite !Z.compare_refl. Qed.

Lemma date_compare_eq a b : date_compare a b = Eq -> a = b.
Proof.
  destruct a as [ya ma da], b as [yb mb db]; unfold date_compare; simpl.
  destruct (ya ?= yb) eqn:Hy; try discriminate.
  destruct (ma ?= mb) eqn:Hm; try discriminate.
  intros Hd. apply Z.compare_eq in Hy, Hm, Hd. congruence.
Qed.

(** [date_le] is the lexicographic order on (year, month, day). *)
Lemma date_le_lex a b :
  date_le a b = true <->
  year a < year b \/
  (year a = year b /\ (month a < month b \/ (month a = month b /\ day a <= day b))).
Proof.
  unfold date_le, date_compare.
  destruct (Z.compare_spec (year a) (year b));
    destruct (Z.compare_spec (month a) (month b));
    destruct (Z.compare_spec (day a) (day b)); split; intros; try discriminate;
    try reflexivity; lia.
Qed.

Lemma date_le_refl a : date_le a a = true.
Proof. unfold date_le. now rewrite date_compare_refl. Qed.

Lemma date_le_trans a b c :
  date_le a b = true -> date_le b c = true -> date_le a c = true.
Proof. rewrite !date_le_lex. lia. Qed.

Lemma date_le_total a b : date_le a b = true \/ date_le b a = true.
Proof. rewrite !date_le_lex. lia. Qed.

Lemma date_le_compare a b : date_le a b = true <-> date_compare a b <> Gt.
Proof. unfold date_le. destruct (date_compare a b); split; congruence. Qed.

Lemma date_compare_Lt_le a b : date_compare a b = Lt -> date_le a b = true.
Proof. intros H. apply date_le_compare. congruence. Qed.

(** The order on time stamps refines the order on their dates. *)
Lemma Timestamp_le_date a b :
  Timestamp_le a b = true -> date_le (ts_date a) (ts_date b) = true.
Proof.
  unfold Timestamp_le, Timestamp_compare.
  destruct (date_compare (ts_date a) (ts_date b)) eqn:Hc; intros H.
  - apply date_compare_eq in Hc. rewrite Hc. apply date_le_refl.
  - now apply date_compare_Lt_le.
  - discriminate.
Qed.

Lemma Timestamp_le_refl a : Timestamp_le a a = true.
Proof.
  unfold Timestamp_le, Timestamp_compare.
  now rewrite date_compare_refl, Z.compare_refl.
Qed.

Lemma Timestamp_le_lex a b :
  Timestamp_le a b = true <->
  (date_le (ts_date a) (ts_date b) = true /\
   (ts_date a = ts_date b -> ts_time a <= ts_time b)).
Proof.
  unfold Timestamp_le, Timestamp_compare.
  destruct (date_compare (ts_date a) (ts_date b)) eqn:Hc.
  - apply date_compare_eq in Hc. rewrite Hc, date_le_refl.
    destruct (Z.compare_spec (ts_time a) (ts_time b)); split; intros;
      try discriminate; try reflexivity; try (split; [reflexivity|lia]).
    destruct H0 as [_ H0]. specialize (H0 eq_refl). lia.
  - split; [|reflexivity]. intros _. split; [now apply date_compare_Lt_le|].
    intros E. rewrite E, date_compare_refl in Hc. discriminate.
  - split; [discriminate|]. intros [H _].
    apply date_le_compare in H. contradiction.
Qed.

Lemma date_le_antisym a b : date_le a b = true -> date_le b a = true -> a = b.
Proof.
  rewrite !date_le_lex. destruct a, b; simpl. intros. f_equal; lia.
Qed.

Lemma Timestamp_le_trans a b c :
  Timestamp_le a b = true -> Timestamp_le b c = true -> Timestamp_le a c = true.
Proof.
  rewrite !Timestamp_le_lex. intros [Hab Tab] [Hbc Tbc]. split.
  - eapply date_le_trans; eassumption.
  - intros E. rewrite E in Hab.
    assert (ts_date b = ts_date c) by (apply date_le_antisym; assumption).
    assert (ts_date a = ts_date b) by congruence.
    specialize (Tab H0). specialize (Tbc H). lia.
Qed.

Lemma Timestamp_le_total a b : Timestamp_le a b = true \/ Timestamp_le b a = true.
Proof.
  rewrite !Timestamp_le_lex.
  destruct (date_le_total (ts_date a) (ts_date b)) as [H|H];
    destruct (date_le (ts_date b) (ts_date a)) eqn:H';
    destruct (date_le (ts_date a) (ts_date b)) eqn:H''; try discriminate.
  - assert (E : ts_date a = ts_date b) by (apply date_le_antisym; assumption).
    destruct (Z.le_ge_cases (ts_time a) (ts_time b)); [left|right]; split; auto.
  - left. split; auto. intros E. rewrite E, date_le_refl in H'. discriminate.
  - assert (E : ts_date a = ts_date b) by (apply date_le_antisym; assumption).
    destruct (Z.le_ge_cases (ts_time a) (ts_time b)); [left|right]; split; auto.
  - right. split; auto. intros E. rewrite E, date_le_refl in H''. discriminate.
Qed.

(** On valid dates, later dates fall in later or equal months. *)
Lemma month_index_mono a b :
  valid_date a -> valid_date b -> date_le a b = true -> month_index a <= month_index b.
Proof. unfold valid_date, month_index. rewrite date_le_lex. lia. Qed.

(** On valid dates, a month index names one calendar month. *)
Lemma month_index_inj a b :
  valid_date a -> valid_date b -> month_index a = month_index b ->
  year a = year b /\ month a = month b.
Proof. unfold valid_date, month_index. lia. Qed.

End DateOrder.

(** ** Columns *)

Section Columns.

Lemma wrap64_int64 (z : Z) : int64 (wrap64 z).
Proof.
  unfold int64, wrap64.
  pose proof (Z.mod_pos_bound (z + 2 ^ 63) (2 ^ 64) ltac:(lia)). lia.
Qed.

(** Inside the range nothing wraps. *)
Lemma wrap64_small (z : Z) : int64 z -> wrap64 z = z.
Proof. unfold int64, wrap64. intros H. rewrite Z.mod_small; lia. Qed.

Lemma wrap64_add_l (a b : Z) : wrap64 (wrap64 a + b) = wrap64 (a + b).
Proof.
  unfold wrap64. f_equal.
  replace ((a + 2 ^ 63) mod 2 ^ 64 - 2 ^ 63 + b + 2 ^ 63)
    with ((a + 2 ^ 63) mod 2 ^ 64 + b) by lia.
  rewrite Zplus_mod_idemp_l. f_equal. lia.
Qed.

Lemma fold_left_wrap64 (s : list Z) (acc : Z) :
  int64 acc ->
  fold_left (fun acc x => wrap64 (acc + x)) s acc = wrap64 (acc + fold_right Z.add 0 s).
Proof.
  revert acc. induction s as [|x s IH]; intros acc Hacc; simpl.
  - rewrite Z.add_0_r. symmetry. now apply wrap64_small.
  - rewrite IH by apply wrap64_int64. rewrite wrap64_add_l. f_equal. lia.
Qed.

(** The running total of pandas is the sum of the specification brought
    into the int64 range. *)
Lemma sum_sum_over {D} (field : Row D -> Z) (ledger : list (Row D)) :
  pd.sum (map field ledger) = wrap64 (sum_over field ledger).
Proof.
  unfold pd.sum. rewrite fold_left_wrap64 by (unfold int64; lia).
  f_equal. rewrite Z.add_0_l.
  induction ledger as [|r l IH]; simpl; [reflexivity | now rewrite IH].
Qed.

(** A column of int64 values whose sum lies in the range is summed
    exactly. *)
Lemma sum_exact {D} (field : Row D -> Z) (ledger : list (Row D)) :
  int64 (sum_over field ledger) -> pd.sum (map field ledger) = sum_over field ledger.
Proof. intros H. rewrite sum_sum_over. now apply wrap64_small. Qed.

Lemma nth_error_last {A} (s : list A) :
  nth_error s (Nat.pred (length s)) = last s.
Proof.
  induction s as [|a s IH]; [reflexivity|].
  destruct s as [|b s]; [reflexivity|].
  simpl in *. exact IH.
Qed.

(** Position -1 is the last entry. *)
Lemma iloc_last {A} (s : list A) (a : A) :
  last s = Some a -> pd.iloc s (-1) = Returned a.
Proof.
  intros Hlast. unfold pd.iloc.
  assert (Hlen : (0 < length s)%nat) by (destruct s; [discriminate | simpl; lia]).
  change (-1 <? 0) with true. cbv iota.
  replace (Z.of_nat (length s) + -1 <? 0) with false by (symmetry; apply Z.ltb_ge; lia).
  replace (Z.of_nat (length s) <=? Z.of_nat (length s) + -1) with false
    by (symmetry; apply Z.leb_gt; lia).
  simpl.
  replace (Z.to_nat (Z.of_nat (length s) + -1)) with (Nat.pred (length s)) by lia.
  now rewrite nth_error_last, Hlast.
Qed.

Lemma last_map {A B} (f : A -> B) (s : list A) : last (map f s) = f <$> last s.
Proof.
  induction s as [|a s IH]; [reflexivity|].
  destruct s as [|b s]; [reflexivity|]. exact IH.
Qed.

(** [min] answers the earliest stamp of the column. *)
Lemma min_fold_spec (s : list Timestamp) (t : Timestamp) :
  let m := fold_left (fun m x => if Timestamp_le x m then x else m) s t in
  In m (t :: s) /\ forall x, In x (t :: s) -> Timestamp_le m x = true.
Proof.
  revert t. induction s as [|y s IH]; intros t; simpl.
  - split; [now left|]. intros x [Hx|[]]. subst x. apply Timestamp_le_refl.
  - destruct (Timestamp_le y t) eqn:Hyt.
    + destruct (IH y) as [Hin Hle]. split.
      * right. exact Hin.
      * intros x [Hx|Hx]; [subst x|].
        -- eapply Timestamp_le_trans; [apply Hle; now left | exact Hyt].
        -- apply Hle. exact Hx.
    + destruct (IH t) as [Hin Hle]. split.
      * destruct Hin as [Hin|Hin]; [now left | right; now right].
      * intros x [Hx|[Hx|Hx]]; [subst x|subst x|].
        -- apply Hle. now left.
        -- eapply Timestamp_le_trans; [apply Hle; now left|].
           destruct (Timestamp_le_total t y) as [H|H]; [exact H | congruence].
        -- apply Hle. now right.
Qed.

Lemma max_fold_spec (s : list Timestamp) (t : Timestamp) :
  let m := fold_left (fun m x => if Timestamp_le m x then x else m) s t in
  In m (t :: s) /\ forall x, In x (t :: s) -> Timestamp_le x m = true.
Proof.
  revert t. induction s as [|y s IH]; intros t; simpl.
  - split; [now left|]. intros x [Hx|[]]. subst x. apply Timestamp_le_refl.
  - destruct (Timestamp_le t y) eqn:Hty.
    + destruct (IH y) as [Hin Hle]. split.
      * right. exact Hin.
      * intros x [Hx|Hx]; [subst x|].
        -- eapply Timestamp_le_trans; [exact Hty | apply Hle; now left].
        -- apply Hle. exact Hx.
    + destruct (IH t) as [Hin Hle]. split.
      * destruct Hin as [Hin|Hin]; [now left | right; now right].
      * intros x [Hx|[Hx|Hx]]; [subst x|subst x|].
        -- apply Hle. now left.
        -- eapply Timestamp_le_trans; [|apply Hle; now left].
           destruct (Timestamp_le_total y t) as [H|H]; [exact H | congruence].
        -- apply Hle. now right.
Qed.

Lemma min_spec (s : list Timestamp) (lo : Timestamp) :
  pd.min s = Some lo -> In lo s /\ forall x, In x s -> Timestamp_le lo x = true.
Proof.
  destruct s as [|t s]; [discriminate|]. simpl. intros [= <-].
  apply min_fold_spec.
Qed.

Lemma max_spec (s : list Timestamp) (hi : Timestamp) :
  pd.max s = Some hi -> In hi s /\ forall x, In x s -> Timestamp_le x hi = true.
Proof.
  destruct s as [|t s]; [discriminate|]. simpl. intros [= <-].
  apply max_fold_spec.
Qed.

Lemma min_is_Some (s : list Timestamp) : s <> [] -> exists lo, pd.min s = Some lo.
Proof. destruct s; [congruence | intros _; eexists; reflexivity]. Qed.

Lemma max_is_Some (s : list Timestamp) : s <> [] -> exists hi, pd.max s = Some hi.
Proof. destruct s; [congruence | intros _; eexists; reflexivity]. Qed.

(** [unique] keeps every value once. *)
Lemma In_unique (s : list string) (x : string) : In x (pd.unique s) <-> In x s.
Proof.
  induction s as [|y s IH]; simpl; [tauto|].
  rewrite filter_In, IH. destruct (String.eqb_spec x y) as [->|Hne]; simpl.
  - split; [intros _; now left | intros _; now left].
  - split.
    + intros [H|[H _]]; [now left | now right].
    + intros [H|H]; [now left | right; split; [exact H | reflexivity]].
Qed.

Lemma NoDup_unique (s : list string) : List.NoDup (pd.unique s).
Proof.
  induction s as [|y s IH]; simpl; [constructor|].
  constructor.
  - rewrite filter_In. intros [_ H]. now rewrite String.eqb_refl in H.
  - now apply List.NoDup_filter.
Qed.

End Columns.

(** ** What a run renders *)

Section Run.

Variable parse_datetime : string -> option Timestamp.
Variable str : Exception -> string.
Variable script_dir : string.
Variable interactive : bool.

Lemma prepend_nil {A} (r : Result A) : prepend [] r = r.
Proof. now destruct r. Qed.

Lemma bind_Returned {A B} (m : Script A) (k : A -> Script B) fs a page fs' :
  m fs = mkResult (Returned a) page fs' -> bind m k fs = prepend page (k a fs').
Proof. intros H. unfold bind. now rewrite H. Qed.

Lemma bind_Raised {A B} (m : Script A) (k : A -> Script B) fs e page fs' :
  m fs = mkResult (Raised e) page fs' -> bind m k fs = mkResult (Raised e) page fs'.
Proof. intros H. unfold bind. now rewrite H. Qed.

Lemma bind_render {B} (e : st.Element) (k : unit -> Script B) fs :
  bind (render e) k fs = prepend [e] (k tt fs).
Proof. reflexivity. Qed.

Lemma bind_ret {A B} (a : A) (k : A -> Script B) fs : bind (ret a) k fs = k a fs.
Proof. unfold bind, ret. cbn [outcome rendered files_after]. apply prepend_nil. Qed.

Lemma bind_raise {A B} (e : Exception) (k : A -> Script B) fs :
  bind (raise e) k fs = mkResult (Raised e) [] fs.
Proof. reflexivity. Qed.

Lemma try_except_eq {A} (body : Script A) (handler : Exception -> Script A) fs :
  try_except body handler fs =
  match outcome (body fs) with
  | Returned _ => body fs
  | Raised e => prepend (rendered (body fs)) (handler e (files_after (body fs)))
  end.
Proof. reflexivity. Qed.

Lemma wait_for_exit_eq fs :
  wait_for_exit interactive fs = mkResult (Returned tt) (exit_notice interactive) fs.
Proof. unfold wait_for_exit, exit_notice. now destruct interactive. Qed.

Lemma check_columns_eq (sheet : Sheet) (cols : list string) fs :
  check_columns interactive sheet cols fs =
  match first_missing sheet cols with
  | None => mkResult (Returned true) [] fs
  | Some col => mkResult (Returned false) (missing_column_page interactive col) fs
  end.
Proof.
  unfold first_missing. induction cols as [|col cols IH]; simpl.
  - reflexivity.
  - destruct (pd.has_column sheet col); simpl.
    + exact IH.
    + unfold bind, render. simpl. rewrite wait_for_exit_eq. simpl.
      unfold missing_column_page. now rewrite app_nil_r.
Qed.

Lemma load_eq (p : path) fs :
  load parse_datetime interactive p fs =
  match fs !! p with
  | None => mkResult (Raised FileNotFoundError) [] fs
  | Some sheet =>
      match first_missing sheet required_columns with
      | Some col => mkResult (Returned None) (missing_column_page interactive col) fs
      | None =>
          match pd.to_datetime parse_datetime (map Date (rows sheet)) with
          | Raised e => mkResult (Raised e) [] fs
          | Returned dates => mkResult (Returned (Some (pd.assign_Date sheet dates))) [] fs
          end
      end
  end.
Proof.
  unfold load, bind, read_excel.
  destruct (fs !! p) as [sheet|]; cbn [outcome rendered files_after]; [|reflexivity].
  rewrite check_columns_eq.
  destruct (first_missing sheet required_columns) as [col|];
    cbn [outcome rendered files_after negb ret app].
  - now rewrite app_nil_r.
  - destruct (pd.to_datetime parse_datetime (map Date (rows sheet))); reflexivity.
Qed.

(** The balance metric never raises: the table is empty or has a last row. *)
Lemma current_balance_eq (df : DataFrame) :
  current_balance df =
  Returned (if pd.empty df then 0 else balance_of_last_row (rows df)).
Proof.
  unfold current_balance. destruct (pd.empty df) eqn:E; simpl; [reflexivity|].
  unfold balance_of_last_row.
  destruct (last (rows df)) as [r|] eqn:Hlast.
  - apply iloc_last. now rewrite last_map, Hlast.
  - unfold pd.empty in E. apply orb_false_elim in E as [_ E].
    destruct (rows df); [discriminate E | ].
    exfalso. revert Hlast. clear. revert r. induction l as [|b l IH]; intros r; simpl.
    + discriminate.
    + apply IH.
Qed.

Lemma display_summary_metrics_eq (df : DataFrame) fs :
  display_summary_metrics df fs =
  mkResult (Returned tt)
    [ st.metric "Total Contributions" (total_contributions df);
      st.metric "Total Spending" (total_spending df);
      st.metric "Current Balance" (shown_balance df);
      st.metric "Number of Contributors" (Z.of_nat (valid_contributors df)) ]
    fs.
Proof.
  unfold display_summary_metrics, bind, render, lift. simpl.
  rewrite current_balance_eq. reflexivity.
Qed.

Lemma dashboard_eq (df : DataFrame) (user : User) fs :
  dashboard script_dir df user fs =
  match min_date df, max_date df with
  | None, _ =>
      mkResult (Raised (NaTValue "Start Date")) (upper_page df (shown_balance df)) fs
  | Some _, None =>
      mkResult (Raised (NaTValue "End Date")) (upper_page df (shown_balance df)) fs
  | Some lo, Some hi =>
      let view := view_of df user lo hi in
      if export_click user then
        mkResult (Returned tt)
          (upper_page df (shown_balance df) ++
           [ st.dataframe view;
             st.success ("Data exported to " ++ os_path.show (export_path script_dir)) ])
          (<[export_path script_dir := written_sheet view]> fs)
      else
        mkResult (Returned tt) (upper_page df (shown_balance df) ++ [st.dataframe view]) fs
  end.
Proof.
  unfold dashboard.
  rewrite !bind_render.
  rewrite (bind_Returned _ _ _ _ _ _ (display_summary_metrics_eq df fs)).
  rewrite !bind_render. unfold date_input.
  destruct (min_date df) as [lo|]; [|now rewrite bind_raise].
  rewrite bind_ret.
  destruct (max_date df) as [hi|]; [|now rewrite bind_raise].
  rewrite bind_ret, bind_render. fold (view_of df user lo hi).
  destruct (export_click user); [|reflexivity].
  unfold bind, to_excel, render. reflexivity.
Qed.

(** Every path through [main]. *)
Lemma main_eq (user : User) fs :
  main parse_datetime str script_dir interactive user fs =
  match fs !! file_path script_dir with
  | None =>
      mkResult (Returned tt)
        (st.error ("Excel file not found at: " ++ os_path.show (file_path script_dir))
         :: st.info "Please ensure the Excel file exists at the specified location."
         :: exit_notice interactive) fs
  | Some sheet =>
      match first_missing sheet required_columns with
      | Some col => mkResult (Returned tt) (missing_column_page interactive col) fs
      | None =>
          match pd.to_datetime parse_datetime (map Date (rows sheet)) with
          | Raised e => mkResult (Returned tt) (failure_page str interactive e) fs
          | Returned dates =>
              let df := pd.assign_Date sheet dates in
              let r := dashboard script_dir df user fs in
              match outcome r with
              | Returned _ => r
              | Raised e =>
                  mkResult (Returned tt) (rendered r ++ failure_page str interactive e) (files_after r)
              end
          end
      end
  end.
Proof.
  unfold main.
  destruct (fs !! file_path script_dir) as [sheet|] eqn:Hfile.
  - rewrite (bind_Returned _ _ fs true [] fs)
      by (unfold exists_; now rewrite Hfile).
    rewrite prepend_nil. cbn [negb]. rewrite try_except_eq.
    pose proof (load_eq (file_path script_dir) fs) as Hload. rewrite Hfile in Hload.
    destruct (first_missing sheet required_columns) as [col|].
    + rewrite (bind_Returned _ _ _ _ _ _ Hload).
      unfold prepend, ret. cbn [outcome rendered files_after].
      now rewrite app_nil_r.
    + destruct (pd.to_datetime parse_datetime (map Date (rows sheet))) as [dates|e].
      * rewrite (bind_Returned _ _ _ _ _ _ Hload), prepend_nil. cbv zeta.
        destruct (dashboard script_dir (pd.assign_Date sheet dates) user fs)
          as [[[]|e] page fs'] eqn:Hd; cbn [outcome rendered files_after].
        -- reflexivity.
        -- rewrite bind_render, wait_for_exit_eq. reflexivity.
      * rewrite (bind_Raised _ _ _ _ _ _ Hload). cbn [outcome rendered files_after].
        rewrite bind_render, wait_for_exit_eq. reflexivity.
  - rewrite (bind_Returned _ _ fs false [] fs)
      by (unfold exists_; now rewrite Hfile).
    rewrite prepend_nil. cbn [negb].
    rewrite !bind_render, wait_for_exit_eq. reflexivity.
Qed.

End Run.

(** ** Pages are read piecewise *)

Section Pages.

Lemma metric_values_app label (p q : list st.Element) :
  metric_values label (p ++ q) = (metric_values label p ++ metric_values label q)%list.
Proof.
  induction p as [|e p IH]; [reflexivity|].
  destruct e; simpl; try exact IH.
  destruct (String.eqb label0 label); simpl; now rewrite IH.
Qed.

Lemma shown_tables_app (p q : list st.Element) :
  shown_tables (p ++ q) = (shown_tables p ++ shown_tables q)%list.
Proof.
  induction p as [|e p IH]; [reflexivity|].
  destruct e; simpl; try exact IH. now rewrite IH.
Qed.

Lemma shown_errors_app (p q : list st.Element) :
  shown_errors (p ++ q) = (shown_errors p ++ shown_errors q)%list.
Proof.
  induction p as [|e p IH]; [reflexivity|].
  destruct e; simpl; try exact IH. now rewrite IH.
Qed.

Lemma metric_values_exit_notice label interactive :
  metric_values label (exit_notice interactive) = [].
Proof. now destruct interactive. Qed.

Lemma shown_tables_exit_notice interactive : shown_tables (exit_notice interactive) = [].
Proof. now destruct interactive. Qed.

Lemma shown_errors_exit_notice interactive : shown_errors (exit_notice interactive) = [].
Proof. now destruct interactive. Qed.

Lemma first_missing_None {D} (df : Frame D) (cols : list string) :
  first_missing df cols = None <-> forallb (pd.has_column df) cols = true.
Proof.
  unfold first_missing. induction cols as [|c cols IH]; simpl; [tauto|].
  destruct (pd.has_column df c); simpl; [exact IH|]. split; discriminate.
Qed.

Lemma first_missing_split {D} (df : Frame D) (before after : list string) col :
  forallb (pd.has_column df) before = true ->
  pd.has_column df col = false ->
  first_missing df (before ++ col :: after) = Some col.
Proof.
  unfold first_missing. induction before as [|c before IH]; simpl; intros Hb Hc.
  - now rewrite Hc.
  - apply andb_prop in Hb as [Hc' Hb]. rewrite Hc'. simpl. now apply IH.
Qed.

Lemma has_column_nonempty {D} (df : Frame D) col :
  pd.has_column df col = true -> columns df <> [].
Proof. unfold pd.has_column. destruct (columns df); [discriminate | congruence]. Qed.

End Pages.

(** ** The loader and the summary metrics *)

Section Summary.

Variable parse_datetime : string -> option Timestamp.
Variable str : Exception -> string.
Variable script_dir : string.
Variable interactive : bool.

(** What a successful load tells about the file. *)
Lemma load_Some (p : path) fs (df : DataFrame) :
  outcome (load parse_datetime interactive p fs) = Returned (Some df) ->
  exists sheet dates,
    fs !! p = Some sheet /\
    first_missing sheet required_columns = None /\
    pd.to_datetime parse_datetime (map Date (rows sheet)) = Returned dates /\
    df = pd.assign_Date sheet dates.
Proof.
  rewrite load_eq. destruct (fs !! p) as [sheet|]; [|discriminate].
  destruct (first_missing sheet required_columns) eqn:Hm; [discriminate|].
  destruct (pd.to_datetime parse_datetime (map Date (rows sheet))) as [dates|] eqn:Hd;
    [|discriminate].
  cbn [outcome]. intros [= <-]. now exists sheet, dates.
Qed.

Lemma loaded_not_without_columns (sheet : Sheet) (dates : list Timestamp) :
  first_missing sheet required_columns = None ->
  columns (pd.assign_Date sheet dates) <> [].
Proof.
  intros Hm. apply first_missing_None in Hm. simpl in Hm.
  apply andb_prop in Hm as [Hm _]. now apply has_column_nonempty in Hm.
Qed.

Lemma shown_balance_last (df : DataFrame) :
  columns df <> [] -> shown_balance df = balance_of_last_row (rows df).
Proof.
  intros Hc. unfold shown_balance, pd.empty, balance_of_last_row.
  destruct (columns df); [congruence|]. destruct (rows df); reflexivity.
Qed.

(** The part of the page below the summary holds no metric. *)
Lemma main_page_loaded (sheet : Sheet) (dates : list Timestamp) (user : User) fs :
  fs !! file_path script_dir = Some sheet ->
  first_missing sheet required_columns = None ->
  pd.to_datetime parse_datetime (map Date (rows sheet)) = Returned dates ->
  let df := pd.assign_Date sheet dates in
  exists rest,
    rendered (main parse_datetime str script_dir interactive user fs) =
      upper_page df (shown_balance df) ++ rest /\
    forall label, metric_values label rest = [].
Proof.
  intros Hfile Hm Hd df. rewrite main_eq, Hfile, Hm, Hd. cbv zeta.
  fold df. rewrite dashboard_eq.
  destruct (min_date df) as [lo|]; [destruct (max_date df) as [hi|]|];
    [destruct (export_click user)| |]; cbn [outcome rendered]; eexists;
    (split; [reflexivity|]); intros label; simpl;
    try apply metric_values_exit_notice; reflexivity.
Qed.

(** C1. The balance metric of a run is the [Balance] of the last row of the
    loaded ledger in source order, 0 for a ledger without rows; it is read
    from the unfiltered ledger, so it is the same whatever dates,
    contributor and transaction type the user selects afterwards. *)
Theorem current_balance_is_last_row_under_every_filter
    (df : DataFrame) (user : User) fs :
  outcome (load parse_datetime interactive (file_path script_dir) fs) = Returned (Some df) ->
  current_balance df = Returned (balance_of_last_row (rows df)) /\
  metric_values "Current Balance"
    (rendered (main parse_datetime str script_dir interactive user fs))
  = [balance_of_last_row (rows df)].
Proof.
  intros Hload. apply load_Some in Hload as (sheet & dates & Hfile & Hm & Hd & ->).
  pose proof (loaded_not_without_columns sheet dates Hm) as Hc.
  split.
  - rewrite current_balance_eq. fold (shown_balance (pd.assign_Date sheet dates)).
    now rewrite shown_balance_last.
  - destruct (main_page_loaded sheet dates user fs Hfile Hm Hd) as (rest & -> & Hrest).
    rewrite metric_values_app, Hrest, shown_balance_last by exact Hc. reflexivity.
Qed.

(** C3 as written fails where the sum leaves the int64 range: two
    contributions of 2^62 add up to 2^63, and the total shown is -2^63. *)
Lemma total_contributions_wraps_around :
  int64_amounts two_large_contributions /\
  sum_over Contribution (rows two_large_contributions) = 2 ^ 63 /\
  total_contributions two_large_contributions = - 2 ^ 63 /\
  total_contributions two_large_contributions
    <> sum_over Contribution (rows two_large_contributions).
Proof.
  split; [repeat constructor; unfold int64; simpl; lia|].
  split; [reflexivity|]. split; [vm_compute; reflexivity|].
  vm_compute. discriminate.
Qed.

(** C3, amended. For a ledger of int64 amounts the two totals are the sums
    of the [Contribution] and of the [Spend] field over all rows, taken in
    int64 arithmetic: the sum brought into the 64-bit signed range, hence
    the sum itself whenever it lies in that range.  These are the values the
    summary shows. *)
Theorem totals_are_int64_sums_over_all_rows (df : DataFrame) fs :
  int64_amounts df ->
  total_contributions df = wrap64 (sum_over Contribution (rows df)) /\
  total_spending df = wrap64 (sum_over Spend (rows df)) /\
  metric_values "Total Contributions" (rendered (display_summary_metrics df fs))
    = [wrap64 (sum_over Contribution (rows df))] /\
  metric_values "Total Spending" (rendered (display_summary_metrics df fs))
    = [wrap64 (sum_over Spend (rows df))] /\
  (int64 (sum_over Contribution (rows df)) ->
   total_contributions df = sum_over Contribution (rows df)) /\
  (int64 (sum_over Spend (rows df)) ->
   total_spending df = sum_over Spend (rows df)).
Proof.
  intros _.
  rewrite display_summary_metrics_eq. unfold total_contributions, total_spending.
  rewrite !sum_sum_over. repeat split; try reflexivity; intros H; now apply wrap64_small.
Qed.

(** C4, amended. When required columns are absent the run shows one
    error, naming the first absent column in the order Date, Contributors,
    Spend, Contribution, Balance, then the exit notice, and nothing else:
    no metric, no chart, no table, no file written. *)
Theorem missing_column_halts_naming_the_first
    (sheet : Sheet) (before after : list string) (col : string) (user : User) fs :
  fs !! file_path script_dir = Some sheet ->
  required_columns = before ++ col :: after ->
  forallb (pd.has_column sheet) before = true ->
  pd.has_column sheet col = false ->
  main parse_datetime str script_dir interactive user fs =
    mkResult (Returned tt)
      (st.error ("Required column '" ++ col ++ "' not found in Excel file")
       :: exit_notice interactive) fs
  /\ mentions col ("Required column '" ++ col ++ "' not found in Excel file") = true.
Proof.
  intros Hfile Hreq Hbefore Hcol. split.
  - rewrite main_eq, Hfile, Hreq.
    now rewrite (first_missing_split sheet before after col Hbefore Hcol).
  - assert (Hin : In col required_columns) by (rewrite Hreq; apply in_elt).
    simpl in Hin. repeat (destruct Hin as [<-|Hin]; [reflexivity|]). destruct Hin.
Qed.

(** C10. A sheet with every required column and no row: the run shows the
    summary, with a balance of 0, and the charts; the default of the start
    date has no value, the exception reaches the handler of [main], which
    shows its message; the transaction table is not shown. *)
Theorem empty_ledger_ends_in_the_handler (sheet : Sheet) (user : User) fs :
  fs !! file_path script_dir = Some sheet ->
  forallb (pd.has_column sheet) required_columns = true ->
  rows sheet = [] ->
  let df : DataFrame := mkFrame (columns sheet) [] in
  let page := rendered (main parse_datetime str script_dir interactive user fs) in
  min_date df = None /\
  page = upper_page df 0 ++ failure_page str interactive (NaTValue "Start Date") /\
  shown_tables page = [] /\
  shown_errors page = [("Error: " ++ str (NaTValue "Start Date"))%string] /\
  metric_values "Current Balance" page = [0] /\
  current_balance df = Returned 0.
Proof.
  intros Hfile Hcols Hrows df page.
  apply first_missing_None in Hcols.
  assert (Hpage : page = upper_page df 0 ++ failure_page str interactive (NaTValue "Start Date")).
  { unfold page. rewrite main_eq, Hfile, Hcols, Hrows. cbn [map pd.to_datetime].
    cbv zeta. unfold pd.assign_Date, with_rows. rewrite Hrows. cbn [combine map].
    fold df. rewrite dashboard_eq.
    replace (min_date df) with (@None date) by reflexivity.
    cbn [outcome rendered].
    replace (shown_balance df) with 0; [reflexivity|].
    unfold shown_balance, pd.empty. simpl. now rewrite orb_true_r. }
  split; [reflexivity|]. split; [exact Hpage|].
  rewrite Hpage, shown_tables_app, shown_errors_app, metric_values_app.
  unfold failure_page. simpl.
  rewrite shown_tables_exit_notice, shown_errors_exit_notice, metric_values_exit_notice.
  repeat split; try reflexivity.
  unfold current_balance, pd.empty. simpl. now rewrite orb_true_r.
Qed.

End Summary.

(** ** The filters *)

Section Filters.

Variable script_dir : string.

Lemma filter_all {A} (f : A -> bool) (l : list A) :
  (forall x, In x l -> f x = true) -> List.filter f l = l.
Proof.
  induction l as [|a l IH]; intros H; simpl; [reflexivity|].
  rewrite (H a) by now left. f_equal. apply IH. intros x Hx. apply H. now right.
Qed.

Lemma In_mask {D} (m : Row D -> bool) (df : Frame D) (r : Row D) :
  In r (rows (pd.mask m df)) <-> In r (rows df) /\ m r = true.
Proof. unfold pd.mask. simpl. apply filter_In. Qed.

Lemma columns_filtered_df (df : DataFrame) s e c t :
  columns (filtered_df df s e c t) = columns df.
Proof.
  unfold filtered_df.
  destruct (negb (String.eqb c "All")), (String.eqb t "Contribution"),
    (String.eqb t "Spending"); reflexivity.
Qed.

(** C2. A row of the ledger is in the filtered view exactly when its date
    lies between the start and the end date, both included, its
    contributor is the selected one unless "All" is selected, and its
    contribution is positive under "Contribution", its spend positive
    under "Spending", with no such condition under "All".  The view holds
    nothing but rows of the ledger. *)
Theorem filtered_df_holds_exactly_the_passing_rows
    (df : DataFrame) (start_date end_date : date)
    (selected_contributor transaction_type : string) (r : Row Timestamp) :
  In r (rows (filtered_df df start_date end_date selected_contributor transaction_type))
  <-> In r (rows df) /\
      passes start_date end_date selected_contributor transaction_type r.
Proof.
  unfold filtered_df, passes, date_ge.
  destruct (String.eqb_spec selected_contributor "All") as [Hc|Hc];
    destruct (String.eqb_spec transaction_type "Contribution") as [Ht|Ht];
    try destruct (String.eqb_spec transaction_type "Spending") as [Hs|Hs];
    cbn [negb]; rewrite ?In_mask, ?andb_true_iff, ?String.eqb_eq, ?Z.ltb_lt;
    subst; intuition (try congruence; try discriminate).
Qed.

Lemma filter_filter {A} (f g : A -> bool) (l : list A) :
  List.filter f (List.filter g l) = List.filter (fun x => g x && f x) l.
Proof.
  induction l as [|a l IH]; simpl; [reflexivity|].
  destruct (g a); simpl; [destruct (f a)|]; now rewrite IH.
Qed.

(** The view is the ledger with the rows that fail the test struck out:
    order and repetitions of the rows that pass are those of the ledger. *)
Lemma filtered_df_rows (df : DataFrame) (start_date end_date : date)
    (selected_contributor transaction_type : string) :
  rows (filtered_df df start_date end_date selected_contributor transaction_type)
  = List.filter (passesb start_date end_date selected_contributor transaction_type)
      (rows df).
Proof.
  unfold filtered_df, passesb, date_ge.
  destruct (String.eqb_spec selected_contributor "All") as [Hc|Hc];
    destruct (String.eqb_spec transaction_type "Contribution") as [Ht|Ht];
    try destruct (String.eqb_spec transaction_type "Spending") as [Hs|Hs];
    subst; try discriminate; cbn [negb pd.mask with_rows rows]; rewrite ?filter_filter;
    apply filter_ext; intros r; cbn [negb orb String.eqb Ascii.eqb Bool.eqb];
    rewrite ?andb_true_r, ?orb_true_r, ?andb_true_r, ?andb_assoc; reflexivity.
Qed.

Lemma passesb_passes (start_date end_date : date)
    (selected_contributor transaction_type : string) (r : Row Timestamp) :
  passesb start_date end_date selected_contributor transaction_type r = true
  <-> passes start_date end_date selected_contributor transaction_type r.
Proof.
  unfold passesb, passes.
  rewrite !andb_true_iff, !orb_true_iff, !negb_true_iff, !String.eqb_eq,
    !String.eqb_neq, !Z.ltb_lt.
  destruct (String.eqb_spec selected_contributor "All");
    destruct (String.eqb_spec transaction_type "Contribution");
    destruct (String.eqb_spec transaction_type "Spending"); intuition congruence.
Qed.

Lemma date_between_min_max (df : DataFrame) (lo hi : date) (r : Row Timestamp) :
  min_date df = Some lo -> max_date df = Some hi -> In r (rows df) ->
  date_le lo (ts_date (Date r)) = true /\ date_le (ts_date (Date r)) hi = true.
Proof.
  unfold min_date, max_date. intros Hlo Hhi Hr.
  destruct (pd.min (map Date (rows df))) as [tlo|] eqn:Hmin; [|discriminate].
  destruct (pd.max (map Date (rows df))) as [thi|] eqn:Hmax; [|discriminate].
  simpl in Hlo, Hhi. injection Hlo as <-. injection Hhi as <-.
  apply min_spec in Hmin as [_ Hmin]. apply max_spec in Hmax as [_ Hmax].
  split; apply Timestamp_le_date; [apply Hmin | apply Hmax]; now apply in_map.
Qed.

(** The filter of the untouched widgets keeps every row. *)
Lemma filtered_df_identity (df : DataFrame) (lo hi : date) :
  min_date df = Some lo -> max_date df = Some hi ->
  filtered_df df lo hi "All" "All" = df.
Proof.
  intros Hlo Hhi. unfold filtered_df. cbn [String.eqb Ascii.eqb negb].
  change (String.eqb "All" "All") with true.
  change (String.eqb "All" "Contribution") with false.
  change (String.eqb "All" "Spending") with false. cbn [negb].
  unfold pd.mask, with_rows. rewrite filter_all.
  - now destruct df.
  - intros r Hr. unfold date_ge.
    destruct (date_between_min_max df lo hi r Hlo Hhi Hr) as [-> ->]. reflexivity.
Qed.

(** C8. For a ledger with at least one row and widgets left at their
    defaults, the start date is the earliest date of the ledger, the end
    date the latest, contributor and transaction type are "All", and the
    table shown is the full ledger. *)
Theorem default_filter_shows_the_full_ledger (df : DataFrame) (user : User) fs :
  rows df <> [] ->
  start_date_pick user = None -> end_date_pick user = None ->
  contributor_pick user = None -> transaction_type_pick user = None ->
  exists lo hi,
    min_date df = Some lo /\ max_date df = Some hi /\
    selectbox (contributors df) (contributor_pick user) = "All" /\
    selectbox transaction_types (transaction_type_pick user) = "All" /\
    filtered_df df lo hi "All" "All" = df /\
    shown_tables (rendered (dashboard script_dir df user fs)) = [df].
Proof.
  intros Hrows Hs He Hc Ht.
  assert (Hdates : map Date (rows df) <> [])
    by (destruct (rows df); [congruence | discriminate]).
  destruct (min_is_Some _ Hdates) as [tlo Hmin].
  destruct (max_is_Some _ Hdates) as [thi Hmax].
  exists (ts_date tlo), (ts_date thi).
  assert (Hlo : min_date df = Some (ts_date tlo)) by (unfold min_date; now rewrite Hmin).
  assert (Hhi : max_date df = Some (ts_date thi)) by (unfold max_date; now rewrite Hmax).
  pose proof (filtered_df_identity df _ _ Hlo Hhi) as Hid.
  rewrite Hc, Ht. repeat split; try assumption; try reflexivity.
  rewrite dashboard_eq, Hlo, Hhi. unfold view_of. rewrite Hs, He, Hc, Ht.
  cbn [default selectbox hd contributors transaction_types]. rewrite Hid.
  destruct (export_click user); cbn [rendered]; rewrite shown_tables_app; reflexivity.
Qed.

End Filters.

(** ** Aggregations *)

Section Aggregations.

Lemma unique_incl (s s' : list string) :
  incl s s' -> (pd.nunique s <= pd.nunique s')%nat.
Proof.
  intros Hincl. unfold pd.nunique. apply List.NoDup_incl_length.
  - apply NoDup_unique.
  - intros x. rewrite !In_unique. apply Hincl.
Qed.

(** The dashboard never counts more contributors than the launcher's
    variant does. *)
Lemma valid_contributors_le_num_contributors (df : DataFrame) :
  (valid_contributors df <= Launcher.num_contributors df)%nat.
Proof.
  unfold valid_contributors, Launcher.num_contributors. apply unique_incl.
  intros x. rewrite !in_map_iff. intros (r & <- & Hr).
  apply filter_In in Hr as [Hr _]. now exists r.
Qed.

(** C5. The two contributor counts of the source disagree: on the
    scenario of the specification the launcher's variant counts the unique
    contributors of all rows, 2, and the dashboard counts those of the
    rows with a positive contribution, 1. *)
Theorem contributor_counts_disagree :
  exists df : DataFrame,
    Launcher.num_contributors df = 2%nat /\
    valid_contributors df = 1%nat /\
    Launcher.num_contributors df <> valid_contributors df.
Proof. exists scenario. repeat split. discriminate. Qed.

(** The dashboard's table holds positive totals only. *)
Lemma contrib_by_person_positive (df : DataFrame) (k : string) (v : Z) :
  In (k, v) (contrib_by_person df) -> 0 < v.
Proof.
  unfold contrib_by_person. rewrite filter_In. intros [_ H]. now apply Z.ltb_lt in H.
Qed.



Lemma HdRel_insert_descending (a x : string * Z) (t : list (string * Z)) :
  HdRel pd.value_ge a t -> pd.value_ge a x ->
  HdRel pd.value_ge a (pd.insert_descending x t).
Proof.
  intros Ht Hx. destruct t as [|y t]; simpl; [now constructor|].
  destruct (snd y <=? snd x); constructor; [exact Hx|].
  now inversion Ht.
Qed.

Lemma Sorted_insert_descending (x : string * Z) (t : list (string * Z)) :
  Sorted pd.value_ge t -> Sorted pd.value_ge (pd.insert_descending x t).
Proof.
  induction 1 as [|y t Ht IH Hy]; simpl; [repeat constructor|].
  destruct (snd y <=? snd x) eqn:E.
  - constructor; [now constructor|]. constructor. unfold pd.value_ge.
    now apply Z.leb_le.
  - constructor; [exact IH|]. apply HdRel_insert_descending; [exact Hy|].
    unfold pd.value_ge. apply Z.leb_gt in E. lia.
Qed.

Lemma Sorted_sort_values_descending (t : list (string * Z)) :
  Sorted pd.value_ge (pd.sort_values_descending t).
Proof.
  unfold pd.sort_values_descending. induction t as [|x t IH]; simpl; [constructor|].
  now apply Sorted_insert_descending.
Qed.

(** The launcher's table is in descending order of the totals. *)
Lemma Launcher_contrib_by_person_descending (df : DataFrame) :
  Sorted pd.value_ge (Launcher.contrib_by_person df).
Proof. unfold Launcher.contrib_by_person. apply Sorted_sort_values_descending. Qed.

(** C6, on the code. The dashboard's table of contributions by
    contributor leaves out the zero totals but is in the order of the
    names, not in descending order of the totals: Alice with 100 comes
    before Bob with 200.  The launcher's variant sorts by total but keeps
    Bob's zero total. *)
Theorem contrib_by_person_is_in_name_order :
  contrib_by_person two_givers = [("Alice", 100); ("Bob", 200)] /\
  ~ Sorted pd.value_ge (contrib_by_person two_givers) /\
  Launcher.contrib_by_person scenario = [("Alice", 100); ("Bob", 0)].
Proof.
  assert (E : contrib_by_person two_givers = [("Alice", 100); ("Bob", 200)])
    by reflexivity.
  split; [exact E|]. split; [|reflexivity].
  rewrite E. intros H. inversion H as [|? ? _ Hd]; subst.
  inversion Hd as [|? ? Hge]; subst. unfold pd.value_ge in Hge. simpl in Hge. lia.
Qed.

Lemma StronglySorted_seqZ (m n : Z) : StronglySorted Z.lt (seqZ m n).
Proof.
  remember (Z.to_nat n) as k eqn:Hk. revert m n Hk.
  induction k as [|k IH]; intros m n Hk.
  - rewrite seqZ_nil by lia. constructor.
  - rewrite seqZ_cons by lia. constructor.
    + apply IH. lia.
    + apply Forall_seqZ. intros; lia.
Qed.

Lemma map_Month_bins (f g : Z -> Z) (ms : list Z) :
  map pd.Month (map (fun m => pd.mkMonthRow m (f m) (g m)) ms) = ms.
Proof. induction ms as [|m ms IH]; simpl; [reflexivity | now rewrite IH]. Qed.

(** A ledger with a gap: the monthly table has a row for February, a month
    without a transaction. *)
Lemma monthly_data_has_a_row_for_an_empty_month :
  monthly_data with_a_gap =
    [ pd.mkMonthRow 24288 100 0; pd.mkMonthRow 24289 0 0; pd.mkMonthRow 24290 0 30 ] /\
  ~ only_months_with_transactions with_a_gap.
Proof.
  split; [reflexivity|]. intros H.
  destruct (H 24289) as (r & Hr & Hm).
  - simpl. right. now left.
  - simpl in Hr. destruct Hr as [<-|[<-|[]]]; discriminate Hm.
Qed.

(** C7, amended. For a ledger of int64 amounts, the monthly table has one
    row for every calendar month from the month of the earliest date of the
    ledger to the month of the latest one, the months without a transaction
    included, in chronological order; each row holds the sum of
    [Contribution] and the sum of [Spend] over the rows of its month, taken
    in int64 arithmetic, which is 0 for a month without transactions. *)
Theorem monthly_data_covers_every_month_of_the_span (df : DataFrame) :
  Forall (fun r => valid_date (ts_date (Date r))) (rows df) ->
  int64_amounts df ->
  StronglySorted Z.lt (map pd.Month (monthly_data df)) /\
  (forall m, In m (map pd.Month (monthly_data df)) <->
     exists a b, In a (rows df) /\ In b (rows df) /\ month_of a <= m <= month_of b) /\
  (forall row, In row (monthly_data df) ->
     pd.month_Contribution row
       = wrap64 (sum_over Contribution (in_month (pd.Month row) (rows df))) /\
     pd.month_Spend row
       = wrap64 (sum_over Spend (in_month (pd.Month row) (rows df)))) /\
  (forall row, In row (monthly_data df) -> in_month (pd.Month row) (rows df) = [] ->
     pd.month_Contribution row = 0 /\ pd.month_Spend row = 0).
Proof.
  intros Hvalid _. rewrite List.Forall_forall in Hvalid.
  assert (Hsums : forall row, In row (monthly_data df) ->
     pd.month_Contribution row
       = wrap64 (sum_over Contribution (in_month (pd.Month row) (rows df))) /\
     pd.month_Spend row
       = wrap64 (sum_over Spend (in_month (pd.Month row) (rows df)))).
  { unfold monthly_data, pd.resample_M_sum. intros row Hrow.
    destruct (pd.min (map Date (rows df))); [|destruct Hrow].
    destruct (pd.max (map Date (rows df))); [|destruct Hrow].
    apply in_map_iff in Hrow as (m & <- & _). cbn [pd.Month pd.month_Contribution pd.month_Spend].
    rewrite !sum_sum_over. split; reflexivity. }
  split; [|split; [|split; [exact Hsums|]]].
  - unfold monthly_data, pd.resample_M_sum.
    destruct (pd.min (map Date (rows df))); [|constructor].
    destruct (pd.max (map Date (rows df))); [|constructor].
    rewrite map_Month_bins. apply StronglySorted_seqZ.
  - intros m. unfold monthly_data, pd.resample_M_sum.
    destruct (pd.min (map Date (rows df))) as [lo|] eqn:Hmin.
    + destruct (pd.max (map Date (rows df))) as [hi|] eqn:Hmax.
      * rewrite map_Month_bins, <- list_elem_of_In, elem_of_seqZ.
        apply min_spec in Hmin as [Hlo Hmin]. apply max_spec in Hmax as [Hhi Hmax].
        apply in_map_iff in Hlo as (a & Ha & Hina).
        apply in_map_iff in Hhi as (b & Hb & Hinb).
        split.
        -- intros Hm. exists a, b. unfold month_of. rewrite Ha, Hb.
           repeat split; try assumption; lia.
        -- intros (x & y & Hx & Hy & Hle). unfold month_of in Hle.
           assert (month_index (ts_date lo) <= month_index (ts_date (Date x))).
           { apply month_index_mono.
             - rewrite <- Ha. now apply Hvalid.
             - now apply Hvalid.
             - apply Timestamp_le_date, Hmin. now apply in_map. }
           assert (month_index (ts_date (Date y)) <= month_index (ts_date hi)).
           { apply month_index_mono.
             - now apply Hvalid.
             - rewrite <- Hb. now apply Hvalid.
             - apply Timestamp_le_date, Hmax. now apply in_map. }
           lia.
      * destruct (rows df); discriminate.
    + destruct (rows df); [|discriminate]. simpl.
      split; [intros [] | intros (a & _ & [] & _)].
  - intros row Hrow Hempty. destruct (Hsums row Hrow) as [-> ->].
    rewrite Hempty. split; reflexivity.
Qed.

End Aggregations.

(** ** Export and reload *)

Section ExportReload.

Variable parse_datetime : string -> option Timestamp.
Variable str : Exception -> string.
Variable script_dir : string.
Variable interactive : bool.







Lemma shown_tables_upper_page (df : DataFrame) (balance : Z) :
  shown_tables (upper_page df balance) = [].
Proof. reflexivity. Qed.



End ExportReload.

(** ** The properties at the example ledgers *)

(** The balance shown for the scenario of the specification is 70, the
    balance of its last row. *)
Lemma current_balance_of_the_scenario :
  outcome (load no_parser false (file_path ".") (workbook "." (written_sheet scenario)))
    = Returned (Some scenario) /\
  metric_values "Current Balance"
    (rendered (main no_parser class_name "." false untouched
                 (workbook "." (written_sheet scenario)))) = [70].
Proof.
  assert (H : outcome (load no_parser false (file_path ".")
                         (workbook "." (written_sheet scenario)))
              = Returned (Some scenario)) by (vm_compute; reflexivity).
  split; [exact H|].
  exact (proj2 (current_balance_is_last_row_under_every_filter
                  no_parser class_name "." false scenario untouched _ H)).
Defined.

(** A sheet without [Date] and [Balance]: the page names [Date] only. *)
Lemma only_the_first_missing_column_is_named :
  ~ names_every_missing_column sheet_without_Date_and_Balance
      (rendered (main no_parser class_name "." false untouched
                   (workbook "." sheet_without_Date_and_Balance))).
Proof.
  intros H. destruct (H "Balance") as (message & Hin & Hmentions).
  - simpl. tauto.
  - reflexivity.
  - vm_compute in Hin. destruct Hin as [<-|[]]. vm_compute in Hmentions. discriminate.
Qed.

(** A sheet without [Balance] only: the error names [Balance]. *)
Lemma missing_Balance_is_named :
  (workbook "." sheet_without_Balance !! file_path "." = Some sheet_without_Balance /\
   required_columns = ["Date"; "Contributors"; "Spend"; "Contribution"] ++ "Balance" :: [] /\
   forallb (pd.has_column sheet_without_Balance)
     ["Date"; "Contributors"; "Spend"; "Contribution"] = true /\
   pd.has_column sheet_without_Balance "Balance" = false) /\
  main no_parser class_name "." false untouched (workbook "." sheet_without_Balance) =
    mkResult (Returned tt)
      [ st.error "Required column 'Balance' not found in Excel file";
        st.info "Press Enter to exit..." ]
      (workbook "." sheet_without_Balance).
Proof.
  assert (Hfile : workbook "." sheet_without_Balance !! file_path "."
                  = Some sheet_without_Balance) by (vm_compute; reflexivity).
  split; [repeat split; try reflexivity; exact Hfile|].
  exact (proj1 (missing_column_halts_naming_the_first
                  no_parser class_name "." false sheet_without_Balance
                  ["Date"; "Contributors"; "Spend"; "Contribution"] [] "Balance"
                  untouched _ Hfile eq_refl eq_refl eq_refl)).
Defined.

(** The ledger with a gap: three rows, for January, February and March. *)
Lemma monthly_data_of_the_ledger_with_a_gap :
  (Forall (fun r => valid_date (ts_date (Date r))) (rows with_a_gap) /\
   int64_amounts with_a_gap) /\
  map pd.Month (monthly_data with_a_gap) = [24288; 24289; 24290] /\
  StronglySorted Z.lt (map pd.Month (monthly_data with_a_gap)).
Proof.
  assert (H : Forall (fun r => valid_date (ts_date (Date r))) (rows with_a_gap))
    by (repeat constructor; simpl; lia).
  assert (H64 : int64_amounts with_a_gap)
    by (repeat constructor; unfold int64; simpl; lia).
  split; [split; assumption|]. split; [reflexivity|].
  exact (proj1 (monthly_data_covers_every_month_of_the_span with_a_gap H H64)).
Defined.

(** The totals of the scenario: 100 contributed, 30 spent. *)
Lemma totals_of_the_scenario :
  int64_amounts scenario /\
  total_contributions scenario = 100 /\
  total_spending scenario = 30.
Proof.
  assert (H64 : int64_amounts scenario)
    by (repeat constructor; unfold int64; simpl; lia).
  split; [exact H64|].
  destruct (totals_are_int64_sums_over_all_rows scenario ∅ H64)
    as (Hc & Hs & _). rewrite Hc, Hs. split; reflexivity.
Defined.

(** The scenario under untouched widgets: the table shown is the ledger. *)
Lemma default_filter_on_the_scenario :
  rows scenario <> [] /\
  exists lo hi,
    min_date scenario = Some lo /\ max_date scenario = Some hi /\
    selectbox (contributors scenario) (contributor_pick untouched) = "All" /\
    selectbox transaction_types (transaction_type_pick untouched) = "All" /\
    filtered_df scenario lo hi "All" "All" = scenario /\
    shown_tables (rendered (dashboard "." scenario untouched ∅)) = [scenario].
Proof.
  assert (H : rows scenario <> []) by discriminate.
  split; [exact H|].
  exact (default_filter_shows_the_full_ledger "." scenario untouched ∅ H
           eq_refl eq_refl eq_refl eq_refl).
Defined.



(** The sheet without rows: the table is not shown, the handler speaks. *)
Lemma empty_ledger_page :
  let fs := workbook "." sheet_without_rows in
  let page := rendered (main no_parser class_name "." false untouched fs) in
  (fs !! file_path "." = Some sheet_without_rows /\
   forallb (pd.has_column sheet_without_rows) required_columns = true /\
   rows sheet_without_rows = []) /\
  shown_tables page = [] /\
  shown_errors page = ["Error: NaTValue"%string] /\
  metric_values "Current Balance" page = [0].
Proof.
  intros fs page.
  assert (Hfile : fs !! file_path "." = Some sheet_without_rows) by (vm_compute; reflexivity).
  split; [repeat split; try reflexivity; exact Hfile|].
  destruct (empty_ledger_ends_in_the_handler no_parser class_name "." false
              sheet_without_rows untouched fs Hfile eq_refl eq_refl)
    as (_ & _ & Htables & Herrors & Hbalance & _).
  repeat split; assumption.
Defined.

(** * Further properties of the script *)

(** ** Failures, files and the loader *)

Section Failures.

Variable parse_datetime : string -> option Timestamp.
Variable str : Exception -> string.
Variable script_dir : string.
Variable interactive : bool.

Lemma file_path_not_export_path : file_path script_dir <> export_path script_dir.
Proof. unfold file_path, export_path, os_path.join. intros [= H]. Qed.

(** X1. No exception leaves [main]: what the body raises, the handler turns
    into a message. *)
Theorem main_always_returns (user : User) fs :
  outcome (main parse_datetime str script_dir interactive user fs) = Returned tt.
Proof.
  rewrite main_eq.
  destruct (fs !! file_path script_dir) as [sheet|]; [|reflexivity].
  destruct (first_missing sheet required_columns); [reflexivity|].
  destruct (pd.to_datetime parse_datetime (map Date (rows sheet))); [|reflexivity].
  cbv zeta. rewrite dashboard_eq.
  destruct (min_date _); [destruct (max_date _)|]; try reflexivity.
  now destruct (export_click user).
Qed.

(** X2. Without the workbook the run shows where it looked for it and how to
    help, then the exit notice; no metric, chart or table, and no file is
    touched. *)
Theorem missing_workbook_is_reported (user : User) fs :
  fs !! file_path script_dir = None ->
  main parse_datetime str script_dir interactive user fs =
    mkResult (Returned tt)
      (st.error ("Excel file not found at: " ++ script_dir ++ "/Snacks_Fund.xlsx")
       :: st.info "Please ensure the Excel file exists at the specified location."
       :: exit_notice interactive) fs.
Proof. intros Hfile. now rewrite main_eq, Hfile. Qed.

(** The conversion stops at the first text the parser rejects. *)
Lemma to_datetime_first_rejected (before after : list DateCell) (text : string) :
  Forall (fun c => exists t, pd.to_datetime_cell parse_datetime c = Returned t) before ->
  parse_datetime text = None ->
  pd.to_datetime parse_datetime (before ++ Text text :: after) = Raised (ParserError text).
Proof.
  intros Hbefore Htext. induction Hbefore as [|c before [t Hc] _ IH]; simpl.
  - now rewrite Htext.
  - now rewrite Hc, IH.
Qed.

(** The conversion succeeds exactly when every cell is a date-time or a
    text the parser accepts. *)
Lemma to_datetime_Returned (s : list DateCell) :
  (exists dates, pd.to_datetime parse_datetime s = Returned dates) <->
  Forall (fun c => exists t, pd.to_datetime_cell parse_datetime c = Returned t) s.
Proof.
  induction s as [|c s IH]; simpl.
  - split; [constructor | now exists []].
  - destruct (pd.to_datetime_cell parse_datetime c) as [t|e] eqn:Hc.
    + destruct (pd.to_datetime parse_datetime s) as [ts|e].
      * split; [|now eexists]. intros _. constructor; [now exists t|].
        apply IH. now exists ts.
      * split.
        -- intros [dates H]. discriminate.
        -- intros H. inversion H as [|? ? _ Hs]; subst.
           apply IH in Hs as [dates Hs]. discriminate.
    + split.
      * intros [dates H]. discriminate.
      * intros H. inversion H as [|? ? [t Ht] _]; subst. congruence.
Qed.

(** X3. One date that does not parse fails the whole load: the page holds the
    message of the parser's exception for the first such text, then the exit
    notice, and nothing of the dashboard. *)
Theorem unparseable_date_fails_the_load
    (sheet : Sheet) (before after : list DateCell) (text : string) (user : User) fs :
  fs !! file_path script_dir = Some sheet ->
  forallb (pd.has_column sheet) required_columns = true ->
  map Date (rows sheet) = before ++ Text text :: after ->
  Forall (fun c => exists t, pd.to_datetime_cell parse_datetime c = Returned t) before ->
  parse_datetime text = None ->
  main parse_datetime str script_dir interactive user fs =
    mkResult (Returned tt)
      (st.error ("Error: " ++ str (ParserError text)) :: exit_notice interactive) fs.
Proof.
  intros Hfile Hcols Hdates Hbefore Htext.
  apply first_missing_None in Hcols.
  rewrite main_eq, Hfile, Hcols, Hdates.
  now rewrite (to_datetime_first_rejected before after text Hbefore Htext).
Qed.

Lemma assign_Date_rows (rs : list (Row DateCell)) (dates : list Timestamp) :
  pd.to_datetime parse_datetime (map Date rs) = Returned dates ->
  Forall2
    (fun raw r =>
       pd.to_datetime_cell parse_datetime (Date raw) = Returned (Date r) /\
       Contributors r = Contributors raw /\ Spend r = Spend raw /\
       Contribution r = Contribution raw /\ Balance r = Balance raw)
    rs (map (fun rd => set_Date (fst rd) (snd rd)) (combine rs dates)).
Proof.
  revert dates. induction rs as [|raw rs IH]; intros dates; simpl.
  - intros _. constructor.
  - destruct (pd.to_datetime_cell parse_datetime (Date raw)) as [t|] eqn:Hc; [|discriminate].
    destruct (pd.to_datetime parse_datetime (map Date rs)) as [ts|] eqn:Hs; [|discriminate].
    intros [= <-]. simpl. constructor.
    + simpl. repeat split. exact Hc.
    + now apply IH.
Qed.

(** X4. A successful load keeps the table: the same columns, the same rows in
    the same order, each with its contributor and amounts unchanged and its
    date converted; it renders nothing and writes nothing. *)
Theorem load_keeps_the_rows (p : path) fs (df : DataFrame) :
  outcome (load parse_datetime interactive p fs) = Returned (Some df) ->
  exists sheet,
    fs !! p = Some sheet /\
    columns df = columns sheet /\
    Forall2
      (fun raw r =>
         pd.to_datetime_cell parse_datetime (Date raw) = Returned (Date r) /\
         Contributors r = Contributors raw /\ Spend r = Spend raw /\
         Contribution r = Contribution raw /\ Balance r = Balance raw)
      (rows sheet) (rows df) /\
    rendered (load parse_datetime interactive p fs) = [] /\
    files_after (load parse_datetime interactive p fs) = fs.
Proof.
  intros Hload. pose proof Hload as H.
  apply load_Some in H as (sheet & dates & Hfile & Hm & Hd & ->).
  exists sheet. split; [exact Hfile|]. split; [reflexivity|]. split.
  - unfold pd.assign_Date, with_rows. cbn [rows]. now apply assign_Date_rows.
  - now rewrite load_eq, Hfile, Hm, Hd.
Qed.

(** The files a run leaves behind. *)
Lemma files_after_main (user : User) fs :
  files_after (main parse_datetime str script_dir interactive user fs) =
  match shown_tables (rendered (main parse_datetime str script_dir interactive user fs)) with
  | view :: _ =>
      if export_click user then <[export_path script_dir := written_sheet view]> fs else fs
  | [] => fs
  end.
Proof.
  rewrite main_eq.
  destruct (fs !! file_path script_dir) as [sheet|].
  2: { cbn [rendered files_after shown_tables]. now rewrite shown_tables_exit_notice. }
  destruct (first_missing sheet required_columns).
  { unfold missing_column_page. cbn [rendered files_after shown_tables].
    now rewrite shown_tables_exit_notice. }
  destruct (pd.to_datetime parse_datetime (map Date (rows sheet))) as [dates|e].
  2: { unfold failure_page. cbn [rendered files_after shown_tables].
       now rewrite shown_tables_exit_notice. }
  cbv zeta. rewrite dashboard_eq.
  destruct (min_date _); [destruct (max_date _)|]; cbn [outcome rendered files_after].
  - destruct (export_click user); cbn [outcome rendered files_after];
      rewrite shown_tables_app, shown_tables_upper_page; reflexivity.
  - rewrite shown_tables_app, shown_tables_upper_page. unfold failure_page.
    cbn [shown_tables app]. now rewrite shown_tables_exit_notice.
  - rewrite shown_tables_app, shown_tables_upper_page. unfold failure_page.
    cbn [shown_tables app]. now rewrite shown_tables_exit_notice.
Qed.

(** X5. The only file [main] writes is the export: it holds the table shown on
    the page, and it is written only when a table is shown and the user
    asks for the export.  Every other run leaves the files as they are. *)
Theorem main_writes_the_export_only (user : User) fs :
  files_after (main parse_datetime str script_dir interactive user fs) =
  match shown_tables (rendered (main parse_datetime str script_dir interactive user fs)) with
  | view :: _ =>
      if export_click user then <[export_path script_dir := written_sheet view]> fs else fs
  | [] => fs
  end.
Proof. apply files_after_main. Qed.

(** The page depends on the files through the workbook only. *)
Lemma main_page_of_the_workbook (user : User) fs1 fs2 :
  fs1 !! file_path script_dir = fs2 !! file_path script_dir ->
  rendered (main parse_datetime str script_dir interactive user fs1) =
  rendered (main parse_datetime str script_dir interactive user fs2).
Proof.
  intros Hsame. rewrite !main_eq, Hsame.
  destruct (fs2 !! file_path script_dir) as [sheet|]; [|reflexivity].
  destruct (first_missing sheet required_columns); [reflexivity|].
  destruct (pd.to_datetime parse_datetime (map Date (rows sheet))); [|reflexivity].
  cbv zeta. rewrite !dashboard_eq.
  destruct (min_date _); [destruct (max_date _)|]; try reflexivity.
  now destruct (export_click user).
Qed.

(** X6. The export is written fresh: a run that exports ends with the same
    page and the same files whatever an earlier export left behind. *)
Theorem export_overwrites_the_earlier_export (user : User) (old : Sheet) fs :
  export_click user = true ->
  shown_tables (rendered (main parse_datetime str script_dir interactive user fs)) <> [] ->
  rendered (main parse_datetime str script_dir interactive user
              (<[export_path script_dir := old]> fs)) =
  rendered (main parse_datetime str script_dir interactive user fs) /\
  files_after (main parse_datetime str script_dir interactive user
                 (<[export_path script_dir := old]> fs)) =
  files_after (main parse_datetime str script_dir interactive user fs).
Proof.
  intros Hexport Hshown.
  assert (Hpage : rendered (main parse_datetime str script_dir interactive user
                              (<[export_path script_dir := old]> fs)) =
                  rendered (main parse_datetime str script_dir interactive user fs)).
  { apply main_page_of_the_workbook. apply lookup_insert_ne.
    intros H. symmetry in H. now apply file_path_not_export_path in H. }
  split; [exact Hpage|].
  rewrite !files_after_main, Hpage, Hexport.
  destruct (shown_tables _) as [|view ?]; [congruence|].
  apply insert_insert_eq.
Qed.

End Failures.

(** ** How the filters compose *)

Section FilterAlgebra.

Lemma frame_eq {D} (a b : Frame D) :
  columns a = columns b -> rows a = rows b -> a = b.
Proof. destruct a, b; simpl; intros -> ->; reflexivity. Qed.

Lemma filter_sublist {A} (f : A -> bool) (l : list A) : sublist (List.filter f l) l.
Proof.
  induction l as [|a l IH]; simpl; [constructor|].
  destruct (f a); [now apply sublist_skip | now apply sublist_cons].
Qed.

(** X8. The view is cut out of the ledger: it has the ledger's columns, and its
    rows are rows of the ledger in their source order, none repeated more
    often than in the ledger. *)
Theorem filtered_df_is_cut_out_of_the_ledger
    (df : DataFrame) (start_date end_date : date)
    (selected_contributor transaction_type : string) :
  let view := filtered_df df start_date end_date selected_contributor transaction_type in
  columns view = columns df /\
  sublist (rows view) (rows df) /\
  (length (rows view) <= length (rows df))%nat.
Proof.
  cbv zeta. split; [apply columns_filtered_df|].
  rewrite filtered_df_rows. split; [apply filter_sublist|].
  apply sublist_length, filter_sublist.
Qed.

(** X9. Filtering a view again keeps the rows that pass both specifications,
    so two filters give the same view in either order. *)
Theorem filters_commute
    (df : DataFrame) (s1 e1 s2 e2 : date) (c1 t1 c2 t2 : string) :
  filtered_df (filtered_df df s1 e1 c1 t1) s2 e2 c2 t2 =
  filtered_df (filtered_df df s2 e2 c2 t2) s1 e1 c1 t1.
Proof.
  apply frame_eq.
  - now rewrite !columns_filtered_df.
  - rewrite !filtered_df_rows, !filter_filter. apply filter_ext.
    intros r. apply andb_comm.
Qed.

(** X10. Applying the filter of a view to the view changes nothing. *)
Theorem filtered_df_idempotent
    (df : DataFrame) (start_date end_date : date)
    (selected_contributor transaction_type : string) :
  let view := filtered_df df start_date end_date selected_contributor transaction_type in
  filtered_df view start_date end_date selected_contributor transaction_type = view.
Proof.
  cbv zeta. apply frame_eq.
  - now rewrite !columns_filtered_df.
  - rewrite (filtered_df_rows (filtered_df _ _ _ _ _)), filtered_df_rows, filter_filter.
    apply filter_ext. intros r. apply andb_diag.
Qed.

(** X11. A start date after the end date leaves no row. *)
Theorem inverted_date_range_shows_no_row
    (df : DataFrame) (start_date end_date : date)
    (selected_contributor transaction_type : string) :
  date_le start_date end_date = false ->
  rows (filtered_df df start_date end_date selected_contributor transaction_type) = [].
Proof.
  intros Hinv. rewrite filtered_df_rows.
  induction (rows df) as [|r l IH]; simpl; [reflexivity|].
  rewrite IH. unfold passesb.
  destruct (date_le start_date (ts_date (Date r))) eqn:H1;
    destruct (date_le (ts_date (Date r)) end_date) eqn:H2; try reflexivity.
  rewrite (date_le_trans _ _ _ H1 H2) in Hinv. discriminate.
Qed.

(** X12. A wider date range never loses a row: with the same contributor and
    transaction type, every row of the narrower view is in the wider one. *)
Theorem wider_date_range_keeps_the_rows
    (df : DataFrame) (s e s' e' : date) (c t : string) (r : Row Timestamp) :
  date_le s' s = true -> date_le e e' = true ->
  In r (rows (filtered_df df s e c t)) ->
  In r (rows (filtered_df df s' e' c t)).
Proof.
  intros Hs He. rewrite !filtered_df_rows, !filter_In, !passesb_passes.
  unfold passes. intros (Hr & (H1 & H2) & Hc & Ht). split; [exact Hr|].
  split; [|now split]. split; eapply date_le_trans; eassumption.
Qed.

#[global] Instance string_le_total : Total pd.string_le.
Proof. intros a b. apply String.leb_total. Qed.

Lemma sorted_Permutation (l : list string) : Permutation (pd.sorted l) l.
Proof. apply merge_sort_Permutation. Qed.

(** X13. The options of the contributor selector: "All" first, then every
    contributor of the ledger once, in ascending order; and the selector
    answers one of its options whatever position is picked. *)
Theorem contributor_options (df : DataFrame) (pick : option nat) :
  exists names,
    contributors df = "All" :: names /\
    Sorted pd.string_le names /\
    List.NoDup names /\
    (forall x, In x names <-> exists r, In r (rows df) /\ Contributors r = x) /\
    In (selectbox (contributors df) pick) (contributors df).
Proof.
  exists (pd.sorted (pd.unique (map Contributors (rows df)))).
  split; [reflexivity|]. split; [apply Sorted_merge_sort, _|]. split.
  - eapply Permutation_NoDup; [symmetry; apply sorted_Permutation | apply NoDup_unique].
  - split.
    + intros x. split.
      * intros Hx. apply (Permutation_in _ (sorted_Permutation _)) in Hx.
        apply In_unique, in_map_iff in Hx as (r & Hr & Hin). now exists r.
      * intros (r & Hin & Hr).
        apply (Permutation_in _ (Permutation_sym (sorted_Permutation _))).
        apply In_unique, in_map_iff. now exists r.
    + unfold selectbox, contributors. cbn [hd].
      destruct pick as [i|]; [|now left].
      destruct (Nat.lt_ge_cases i
                  (length ("All" :: pd.sorted (pd.unique (map Contributors (rows df))))))
        as [Hlt|Hge].
      * now apply nth_In.
      * rewrite nth_overflow by exact Hge. now left.
Qed.

End FilterAlgebra.

(** ** What the charts add up to *)

Section Charts.

(** Grouping by a key splits a sum: when every row's key is among the
    keys, each once, the sums of the groups add up to the sum of the rows. *)
Lemma sum_of_indicator {K} (eqb : K -> K -> bool) (x : K) (v : Z) (keys : list K) :
  (forall a b, eqb a b = true <-> a = b) ->
  List.NoDup keys -> In x keys ->
  sum_of (fun k => if eqb x k then v else 0) keys = v.
Proof.
  intros Heqb Hnd. induction Hnd as [|k keys Hk Hnd IH]; intros Hin; [destruct Hin|].
  simpl. destruct (eqb x k) eqn:E.
  - apply Heqb in E. subst k.
    assert (H0 : sum_of (fun k => if eqb x k then v else 0) keys = 0).
    { clear IH Hin Hnd. induction keys as [|k keys IH]; simpl; [reflexivity|].
      destruct (eqb x k) eqn:E.
      - apply Heqb in E. subst k. exfalso. apply Hk. now left.
      - rewrite IH; [reflexivity|]. intros H. apply Hk. now right. }
    rewrite H0. lia.
  - destruct Hin as [->|Hin].
    + assert (eqb x x = true) by now apply Heqb. congruence.
    + rewrite (IH Hin). lia.
Qed.

Lemma sum_of_add {K} (f g : K -> Z) (keys : list K) :
  sum_of (fun k => f k + g k) keys = sum_of f keys + sum_of g keys.
Proof. induction keys as [|k keys IH]; simpl; [reflexivity | rewrite IH; lia]. Qed.

Lemma sum_of_ext {K} (f g : K -> Z) (keys : list K) :
  (forall k, f k = g k) -> sum_of f keys = sum_of g keys.
Proof. intros H. induction keys as [|k keys IH]; simpl; [reflexivity | now rewrite H, IH]. Qed.

Lemma sum_of_zero {K} (keys : list K) : sum_of (fun _ => 0) keys = 0.
Proof. induction keys as [|k keys IH]; simpl; [reflexivity | now rewrite IH]. Qed.

Lemma sum_of_map {A B} (f : A -> B) (value : B -> Z) (l : list A) :
  sum_of value (map f l) = sum_of (fun a => value (f a)) l.
Proof. induction l as [|a l IH]; simpl; [reflexivity | now rewrite IH]. Qed.


Lemma sum_by_key {D K} (eqb : K -> K -> bool) (key : Row D -> K) (val : Row D -> Z)
    (keys : list K) (rs : list (Row D)) :
  (forall a b, eqb a b = true <-> a = b) ->
  List.NoDup keys ->
  (forall r, In r rs -> In (key r) keys) ->
  sum_of (fun k => sum_over val (List.filter (fun r => eqb (key r) k) rs)) keys
  = sum_over val rs.
Proof.
  intros Heqb Hnd. induction rs as [|r rs IH]; intros Hkeys; simpl.
  - apply sum_of_zero.
  - rewrite <- IH by (intros x Hx; apply Hkeys; now right).
    rewrite <- (sum_of_indicator eqb (key r) (val r) keys Heqb Hnd)
      by (apply Hkeys; now left).
    rewrite <- sum_of_add. apply sum_of_ext. intros k.
    destruct (eqb (key r) k); simpl; lia.
Qed.

Lemma string_eqb_iff (a b : string) : String.eqb a b = true <-> a = b.
Proof. apply String.eqb_eq. Qed.

Lemma NoDup_sorted_unique (s : list string) : List.NoDup (pd.sorted (pd.unique s)).
Proof.
  eapply Permutation_NoDup; [symmetry; apply sorted_Permutation | apply NoDup_unique].
Qed.

Lemma In_sorted_unique (s : list string) (x : string) :
  In x (pd.sorted (pd.unique s)) <-> In x s.
Proof.
  split; intros H.
  - apply In_unique. eapply Permutation_in; [apply sorted_Permutation | exact H].
  - eapply Permutation_in; [symmetry; apply sorted_Permutation | now apply In_unique].
Qed.

Lemma sum_over_filter_bounds {D} (val : Row D -> Z) (f : Row D -> bool)
    (rs : list (Row D)) :
  Forall (fun r => 0 <= val r) rs ->
  0 <= sum_over val (List.filter f rs) <= sum_over val rs.
Proof.
  induction 1 as [|r rs Hr _ IH]; simpl; [lia|].
  destruct (f r); simpl; lia.
Qed.

(** Where a field adds up inside the int64 range, every group of rows is
    summed exactly. *)
Lemma sum_group_exact {D} (val : Row D -> Z) (f : Row D -> bool) (rs : list (Row D)) :
  adds_up_in_int64 val rs ->
  pd.sum (map val (List.filter f rs)) = sum_over val (List.filter f rs).
Proof.
  intros [Hnonneg Hfit]. apply sum_exact.
  pose proof (sum_over_filter_bounds val f rs Hnonneg). unfold int64. lia.
Qed.

Lemma adds_up_whole {D} (val : Row D -> Z) (rs : list (Row D)) :
  adds_up_in_int64 val rs -> pd.sum (map val rs) = sum_over val rs.
Proof.
  intros [Hnonneg Hfit]. apply sum_exact.
  pose proof (sum_over_filter_bounds val (fun _ => true) rs Hnonneg) as H.
  rewrite filter_all in H by reflexivity. unfold int64. lia.
Qed.

(** The groups of [groupby] add up to the column. *)
Lemma groupby_sum_total {D} (key : Row D -> string) (val : Row D -> Z)
    (rs : list (Row D)) :
  adds_up_in_int64 val rs ->
  sum_of snd (pd.groupby_sum key val rs) = sum_over val rs.
Proof.
  intros Hfit. unfold pd.groupby_sum. rewrite sum_of_map. cbn [snd].
  rewrite (sum_of_ext _ (fun k => sum_over val
             (List.filter (fun r => String.eqb (key r) k) rs)))
    by (intros k; now apply sum_group_exact).
  apply sum_by_key.
  - apply string_eqb_iff.
  - apply NoDup_sorted_unique.
  - intros r Hr. apply In_sorted_unique. now apply in_map.
Qed.

Lemma sum_over_positive {D} (val : Row D -> Z) (rs : list (Row D)) :
  rs <> [] -> (forall r, In r rs -> 0 < val r) -> 0 < sum_over val rs.
Proof.
  induction rs as [|r rs IH]; [congruence|]. intros _ Hpos. simpl.
  destruct rs as [|r' rs].
  - simpl. specialize (Hpos r (or_introl eq_refl)). lia.
  - assert (0 < sum_over val (r' :: rs)).
    { apply IH; [discriminate|]. intros x Hx. apply Hpos. now right. }
    specialize (Hpos r (or_introl eq_refl)). lia.
Qed.

(** The rows with a positive contribution add up inside the range as soon
    as their sum is below 2^63. *)
Lemma givers_add_up (df : DataFrame) :
  sum_over Contribution (List.filter (fun r => 0 <? Contribution r) (rows df)) < 2 ^ 63 ->
  adds_up_in_int64 Contribution (List.filter (fun r => 0 <? Contribution r) (rows df)).
Proof.
  intros Hfit. split; [|exact Hfit]. apply List.Forall_forall. intros r Hr.
  apply filter_In in Hr as [_ Hr]. apply Z.ltb_lt in Hr. lia.
Qed.

(** Every group of rows with a positive contribution has a positive sum,
    when the positive contributions add up inside the range. *)
Lemma groups_of_givers_positive (df : DataFrame) (kv : string * Z) :
  sum_over Contribution (List.filter (fun r => 0 <? Contribution r) (rows df)) < 2 ^ 63 ->
  In kv (pd.groupby_sum Contributors Contribution
           (rows (pd.mask (fun r => 0 <? Contribution r) df))) ->
  0 < snd kv.
Proof.
  intros Hfit. unfold pd.groupby_sum, pd.mask, with_rows. cbn [rows].
  intros H. apply in_map_iff in H as (k & <- & Hk). cbn [snd].
  apply In_sorted_unique, in_map_iff in Hk as (r & Hkey & Hr).
  rewrite sum_group_exact by now apply givers_add_up.
  apply sum_over_positive.
  - intros Hnil.
    assert (Hin : In r (List.filter (fun r0 => String.eqb (Contributors r0) k)
                          (List.filter (fun r0 => 0 <? Contribution r0) (rows df)))).
    { apply filter_In. split; [exact Hr|]. now apply String.eqb_eq. }
    rewrite Hnil in Hin. destruct Hin.
  - intros x Hx. apply filter_In in Hx as [Hx _].
    apply filter_In in Hx as [_ Hx]. now apply Z.ltb_lt.
Qed.

(** The second test of the totals then removes nothing. *)
Lemma contrib_by_person_groups (df : DataFrame) :
  sum_over Contribution (List.filter (fun r => 0 <? Contribution r) (rows df)) < 2 ^ 63 ->
  contrib_by_person df =
  pd.groupby_sum Contributors Contribution
    (rows (pd.mask (fun r => 0 <? Contribution r) df)).
Proof.
  intros Hfit. unfold contrib_by_person. apply filter_all.
  intros kv Hkv. apply Z.ltb_lt. now apply (groups_of_givers_positive df).
Qed.

(** X14. For a ledger of int64 amounts whose positive contributions add up
    to less than 2^63, the chart of contributions has one bar for each
    contributor counted by the "Number of Contributors" metric. *)
Theorem one_bar_per_counted_contributor (df : DataFrame) :
  int64_amounts df ->
  sum_over Contribution (List.filter (fun r => 0 <? Contribution r) (rows df)) < 2 ^ 63 ->
  length (contrib_by_person df) = valid_contributors df.
Proof.
  intros _ Hfit.
  rewrite contrib_by_person_groups by exact Hfit.
  unfold pd.groupby_sum, valid_contributors, pd.nunique.
  rewrite length_map. apply Permutation_length, sorted_Permutation.
Qed.

(** X15. For a ledger of int64 amounts whose positive contributions add up
    to less than 2^63, a contributor has a bar exactly when one of their
    rows has a positive contribution, and the bar is the sum of their
    positive contributions; the bars come in ascending order of the names,
    each name once. *)
Theorem contrib_by_person_entries (df : DataFrame) :
  int64_amounts df ->
  sum_over Contribution (List.filter (fun r => 0 <? Contribution r) (rows df)) < 2 ^ 63 ->
  (forall k v, In (k, v) (contrib_by_person df) <->
     (exists r, In r (rows df) /\ Contributors r = k /\ 0 < Contribution r) /\
     v = sum_over Contribution
           (List.filter (fun r => (0 <? Contribution r) && String.eqb (Contributors r) k)
              (rows df))) /\
  Sorted pd.string_le (map fst (contrib_by_person df)) /\
  List.NoDup (map fst (contrib_by_person df)).
Proof.
  intros _ Hfit.
  rewrite contrib_by_person_groups by exact Hfit.
  unfold pd.groupby_sum, pd.mask, with_rows. cbn [rows].
  rewrite map_map. cbn [fst]. rewrite map_id.
  split; [|split; [apply Sorted_merge_sort, _ | apply NoDup_sorted_unique]].
  intros k v. rewrite in_map_iff. split.
  - intros (k' & [= <- <-] & Hk).
    apply In_sorted_unique, in_map_iff in Hk as (r & Hkey & Hr).
    apply filter_In in Hr as [Hr Hpos]. split.
    + exists r. repeat split; try assumption. now apply Z.ltb_lt.
    + rewrite sum_group_exact by now apply givers_add_up. now rewrite filter_filter.
  - intros ((r & Hr & Hkey & Hpos) & ->). exists k. split.
    + rewrite sum_group_exact by now apply givers_add_up. now rewrite filter_filter.
    + apply In_sorted_unique, in_map_iff. exists r. split; [exact Hkey|].
      apply filter_In. split; [exact Hr | now apply Z.ltb_lt].
Qed.

Lemma sum_over_filter_positive {D} (val : Row D -> Z) (rs : list (Row D)) :
  Forall (fun r => 0 <= val r) rs ->
  sum_over val (List.filter (fun r => 0 <? val r) rs) = sum_over val rs.
Proof.
  induction 1 as [|r rs Hr _ IH]; simpl; [reflexivity|].
  destruct (0 <? val r) eqn:E; simpl; rewrite IH; [reflexivity|].
  apply Z.ltb_ge in E. lia.
Qed.

(** X16. For a ledger of int64 amounts in which no contribution is negative
    and the contributions add up to less than 2^63, the bars of the chart
    of contributions add up to the "Total Contributions" metric. *)
Theorem bars_add_up_to_total_contributions (df : DataFrame) :
  int64_amounts df ->
  adds_up_in_int64 Contribution (rows df) ->
  sum_of snd (contrib_by_person df) = total_contributions df.
Proof.
  intros _ Hfit. pose proof Hfit as [Hnonneg Hsum].
  assert (Hpos : sum_over Contribution
                   (List.filter (fun r => 0 <? Contribution r) (rows df)) < 2 ^ 63)
    by now rewrite sum_over_filter_positive.
  rewrite contrib_by_person_groups by exact Hpos.
  unfold pd.mask, with_rows. cbn [rows].
  rewrite groupby_sum_total by now apply givers_add_up.
  unfold total_contributions.
  now rewrite adds_up_whole, sum_over_filter_positive.
Qed.

(** Rows of equal value keep their order when a table is sorted. *)
Lemma sort_values_descending_sorted (t : list (string * Z)) :
  Sorted pd.value_ge t -> pd.sort_values_descending t = t.
Proof.
  unfold pd.sort_values_descending. induction 1 as [|x t Ht IH Hx]; simpl; [reflexivity|].
  rewrite IH. destruct Hx as [|y t Hxy]; simpl; [reflexivity|].
  unfold pd.value_ge in Hxy. apply Z.leb_le in Hxy. now rewrite Hxy.
Qed.


Lemma month_of_in_span (df : DataFrame) (lo hi : Timestamp) (r : Row Timestamp) :
  Forall (fun r => valid_date (ts_date (Date r))) (rows df) ->
  pd.min (map Date (rows df)) = Some lo ->
  pd.max (map Date (rows df)) = Some hi ->
  In r (rows df) ->
  month_index (ts_date lo) <= month_of r <= month_index (ts_date hi).
Proof.
  intros Hvalid Hmin Hmax Hr. rewrite List.Forall_forall in Hvalid.
  apply min_spec in Hmin as [Hlo Hmin]. apply max_spec in Hmax as [Hhi Hmax].
  apply in_map_iff in Hlo as (a & Ha & Hina).
  apply in_map_iff in Hhi as (b & Hb & Hinb).
  unfold month_of. split; apply month_index_mono.
  - rewrite <- Ha. now apply Hvalid.
  - now apply Hvalid.
  - apply Timestamp_le_date, Hmin. now apply in_map.
  - now apply Hvalid.
  - rewrite <- Hb. now apply Hvalid.
  - apply Timestamp_le_date, Hmax. now apply in_map.
Qed.

Lemma monthly_sums_add_up (df : DataFrame) (val : Row Timestamp -> Z)
    (lo hi : Timestamp) :
  Forall (fun r => valid_date (ts_date (Date r))) (rows df) ->
  adds_up_in_int64 val (rows df) ->
  pd.min (map Date (rows df)) = Some lo ->
  pd.max (map Date (rows df)) = Some hi ->
  sum_of (fun m => pd.sum (map val
            (List.filter (fun r => month_index (ts_date (Date r)) =? m) (rows df))))
    (seqZ (month_index (ts_date lo))
       (month_index (ts_date hi) - month_index (ts_date lo) + 1))
  = pd.sum (map val (rows df)).
Proof.
  intros Hvalid Hfit Hmin Hmax. rewrite (adds_up_whole val (rows df) Hfit).
  rewrite (sum_of_ext _ (fun m => sum_over val
             (List.filter (fun r => Z.eqb (month_of r) m) (rows df))))
    by (intros m; now apply sum_group_exact).
  apply sum_by_key; [apply Z.eqb_eq | apply NoDup_ListNoDup, NoDup_seqZ |].
  intros r Hr. apply list_elem_of_In, elem_of_seqZ.
  pose proof (month_of_in_span df lo hi r Hvalid Hmin Hmax Hr). lia.
Qed.

(** X18. For a ledger of int64 amounts in which no contribution and no spend
    is negative and each of the two columns adds up to less than 2^63, the
    monthly bars add up to the two totals of the summary: every row of the
    ledger falls in one month of the table. *)
Theorem monthly_data_adds_up_to_the_totals (df : DataFrame) :
  Forall (fun r => valid_date (ts_date (Date r))) (rows df) ->
  int64_amounts df ->
  adds_up_in_int64 Contribution (rows df) ->
  adds_up_in_int64 Spend (rows df) ->
  sum_of pd.month_Contribution (monthly_data df) = total_contributions df /\
  sum_of pd.month_Spend (monthly_data df) = total_spending df.
Proof.
  intros Hvalid _ Hc Hs. unfold total_contributions, total_spending.
  unfold monthly_data, pd.resample_M_sum.
  destruct (pd.min (map Date (rows df))) as [lo|] eqn:Hmin.
  - destruct (pd.max (map Date (rows df))) as [hi|] eqn:Hmax.
    + rewrite !sum_of_map. cbn [pd.month_Contribution pd.month_Spend].
      split; now apply monthly_sums_add_up.
    + destruct (rows df); discriminate.
  - destruct (rows df); [|discriminate]. split; reflexivity.
Qed.

End Charts.

(** ** The launcher's script beside the dashboard *)

Section LauncherScript.

Variable parse_datetime : string -> option Timestamp.
Variable str : Exception -> string.
Variable script_dir : string.
Variable interactive : bool.

Lemma Launcher_check_columns_eq (sheet : Sheet) (cols : list string) fs :
  Launcher.check_columns sheet cols fs =
  match first_missing sheet cols with
  | None => mkResult (Returned true) [] fs
  | Some col =>
      mkResult (Returned false)
        [st.error ("Required column '" ++ col ++ "' not found in Excel file")] fs
  end.
Proof.
  unfold first_missing. induction cols as [|col cols IH]; simpl; [reflexivity|].
  destruct (pd.has_column sheet col); simpl; [exact IH | reflexivity].
Qed.

Lemma Launcher_page_eq (df : DataFrame) (user : User) fs :
  Launcher.page df user fs =
  match min_date df, max_date df with
  | None, _ =>
      mkResult (Raised (NaTValue "Start Date"))
        (Launcher.upper_page df (shown_balance df)) fs
  | Some _, None =>
      mkResult (Raised (NaTValue "End Date"))
        (Launcher.upper_page df (shown_balance df)) fs
  | Some lo, Some hi =>
      let view := view_of df user lo hi in
      if export_click user then
        mkResult (Returned tt)
          (Launcher.upper_page df (shown_balance df) ++
           [ st.dataframe view;
             st.success ("Data exported to " ++ Launcher.show Launcher.export_path) ])
          (<[Launcher.export_path := written_sheet view]> fs)
      else
        mkResult (Returned tt)
          (Launcher.upper_page df (shown_balance df) ++ [st.dataframe view]) fs
  end.
Proof.
  unfold Launcher.page.
  rewrite !bind_render.
  change (if negb (pd.empty df) then pd.iloc (map Balance (rows df)) (-1) else Returned 0)
    with (current_balance df).
  rewrite current_balance_eq. cbn [lift]. rewrite bind_ret, !bind_render.
  unfold date_input.
  destruct (min_date df) as [lo|]; [|now rewrite bind_raise].
  rewrite bind_ret.
  destruct (max_date df) as [hi|]; [|now rewrite bind_raise].
  rewrite bind_ret, bind_render. fold (view_of df user lo hi).
  destruct (export_click user); [|reflexivity].
  unfold bind, to_excel, render. reflexivity.
Qed.

(** Every path through the launcher's script. *)
Lemma Launcher_script_eq (user : User) fs :
  Launcher.script parse_datetime str user fs =
  match fs !! Launcher.file_path with
  | None =>
      mkResult (Returned tt)
        [ st.error ("Excel file not found at: " ++ Launcher.show Launcher.file_path);
          st.info "Please ensure the Excel file exists at the specified location." ] fs
  | Some sheet =>
      match first_missing sheet required_columns with
      | Some col =>
          mkResult (Returned tt)
            [st.error ("Required column '" ++ col ++ "' not found in Excel file")] fs
      | None =>
          match pd.to_datetime parse_datetime (map Date (rows sheet)) with
          | Raised e => mkResult (Returned tt) [st.error ("Error: " ++ str e)] fs
          | Returned dates =>
              let df := pd.assign_Date sheet dates in
              let r := Launcher.page df user fs in
              match outcome r with
              | Returned _ => r
              | Raised e =>
                  mkResult (Returned tt) (rendered r ++ [st.error ("Error: " ++ str e)])
                    (files_after r)
              end
          end
      end
  end.
Proof.
  unfold Launcher.script.
  destruct (fs !! Launcher.file_path) as [sheet|] eqn:Hfile.
  - rewrite (bind_Returned _ _ fs true [] fs) by (unfold exists_; now rewrite Hfile).
    rewrite prepend_nil. cbn [negb]. rewrite try_except_eq.
    assert (Hread : read_excel Launcher.file_path fs = mkResult (Returned sheet) [] fs)
      by (unfold read_excel; now rewrite Hfile).
    rewrite (bind_Returned _ _ _ _ _ _ Hread), prepend_nil.
    pose proof (Launcher_check_columns_eq sheet required_columns fs) as Hcheck.
    destruct (first_missing sheet required_columns) as [col|].
    + rewrite (bind_Returned _ _ _ _ _ _ Hcheck). cbn [negb].
      unfold prepend, ret. cbn [outcome rendered files_after]. now rewrite app_nil_r.
    + rewrite (bind_Returned _ _ _ _ _ _ Hcheck), prepend_nil. cbn [negb].
      destruct (pd.to_datetime parse_datetime (map Date (rows sheet))) as [dates|e].
      * cbn [lift]. rewrite bind_ret. cbv zeta.
        destruct (Launcher.page (pd.assign_Date sheet dates) user fs)
          as [[[]|e] page fs'] eqn:Hd; cbn [outcome rendered files_after]; reflexivity.
      * cbn [lift]. rewrite bind_raise. cbn [outcome rendered files_after]. reflexivity.
  - rewrite (bind_Returned _ _ fs false [] fs) by (unfold exists_; now rewrite Hfile).
    rewrite prepend_nil. cbn [negb]. rewrite bind_render. reflexivity.
Qed.

Lemma metric_values_upper_pages (df : DataFrame) (balance : Z) (label : string) :
  label <> "Number of Contributors" ->
  metric_values label (Launcher.upper_page df balance) =
  metric_values label (upper_page df balance).
Proof.
  intros Hlabel. unfold Launcher.upper_page, upper_page. cbn [metric_values].
  destruct (String.eqb_spec "Number of Contributors" label) as [E|_]; [congruence|].
  reflexivity.
Qed.

Lemma metric_values_counts (df : DataFrame) (balance : Z) :
  metric_values "Number of Contributors" (upper_page df balance)
    = [Z.of_nat (valid_contributors df)] /\
  metric_values "Number of Contributors" (Launcher.upper_page df balance)
    = [Z.of_nat (Launcher.num_contributors df)].
Proof. split; reflexivity. Qed.

Lemma shown_tables_Launcher_upper_page (df : DataFrame) (balance : Z) :
  shown_tables (Launcher.upper_page df balance) = [].
Proof. reflexivity. Qed.

(** X19. The launcher's script and the dashboard, run on the same workbook with
    the same selections, show the same table and the same metrics, but for
    the number of contributors, where the dashboard never shows more than
    the launcher's script. *)
Theorem launcher_script_agrees_with_the_dashboard (user : User) fsL fsD :
  fsL !! Launcher.file_path = fsD !! file_path script_dir ->
  let launched := rendered (Launcher.script parse_datetime str user fsL) in
  let dashboard := rendered (main parse_datetime str script_dir interactive user fsD) in
  shown_tables launched = shown_tables dashboard /\
  (forall label, label <> "Number of Contributors" ->
     metric_values label launched = metric_values label dashboard) /\
  Forall2 Z.le (metric_values "Number of Contributors" dashboard)
    (metric_values "Number of Contributors" launched).
Proof.
  intros Hsame. cbv zeta. rewrite Launcher_script_eq, main_eq, Hsame.
  destruct (fsD !! file_path script_dir) as [sheet|].
  2: { cbn [rendered shown_tables metric_values].
       rewrite shown_tables_exit_notice, metric_values_exit_notice.
       repeat split; [|constructor]. intros label _.
       now rewrite metric_values_exit_notice. }
  destruct (first_missing sheet required_columns) as [col|].
  { unfold missing_column_page. cbn [rendered shown_tables metric_values].
    rewrite shown_tables_exit_notice, metric_values_exit_notice.
    repeat split; [|constructor]. intros label _.
    now rewrite metric_values_exit_notice. }
  destruct (pd.to_datetime parse_datetime (map Date (rows sheet))) as [dates|e].
  2: { unfold failure_page. cbn [rendered shown_tables metric_values].
       rewrite shown_tables_exit_notice, metric_values_exit_notice.
       repeat split; [|constructor]. intros label _.
       now rewrite metric_values_exit_notice. }
  cbv zeta. rewrite Launcher_page_eq, dashboard_eq.
  set (df := pd.assign_Date sheet dates).
  assert (Hcount : Forall2 Z.le [Z.of_nat (valid_contributors df)]
                     [Z.of_nat (Launcher.num_contributors df)]).
  { constructor; [|constructor].
    apply Nat2Z.inj_le, valid_contributors_le_num_contributors. }
  destruct (min_date df) as [lo|]; [destruct (max_date df) as [hi|]|];
    [destruct (export_click user)| |]; cbn [outcome rendered];
    unfold failure_page; (split; [|split]).
  all: try (rewrite !shown_tables_app, shown_tables_upper_page,
              shown_tables_Launcher_upper_page; cbn [shown_tables app];
            rewrite ?shown_tables_exit_notice; reflexivity).
  all: try (intros label Hlabel;
            rewrite !metric_values_app, (metric_values_upper_pages _ _ _ Hlabel);
            f_equal; cbn [metric_values];
            rewrite ?metric_values_exit_notice; reflexivity).
  all: rewrite !metric_values_app;
    destruct (metric_values_counts df (shown_balance df)) as [-> ->];
    cbn [metric_values app]; rewrite ?metric_values_exit_notice; exact Hcount.
Qed.

(** X20. The launcher's script stops at the first required column the workbook
    lacks: it shows one error, naming that column, and nothing else, no
    exit notice either; the files are left as they are. *)
Theorem launcher_script_stops_at_the_first_missing_column
    (sheet : Sheet) (before after : list string) (col : string) (user : User) fs :
  fs !! Launcher.file_path = Some sheet ->
  required_columns = before ++ col :: after ->
  forallb (pd.has_column sheet) before = true ->
  pd.has_column sheet col = false ->
  Launcher.script parse_datetime str user fs =
    mkResult (Returned tt)
      [st.error ("Required column '" ++ col ++ "' not found in Excel file")] fs.
Proof.
  intros Hfile Hreq Hbefore Hcol.
  rewrite Launcher_script_eq, Hfile, Hreq.
  now rewrite (first_missing_split sheet before after col Hbefore Hcol).
Qed.

End LauncherScript.

(** ** The further properties at the example ledgers *)

(** A folder without the workbook. *)
Lemma missing_workbook_page :
  (∅ : gmap path Sheet) !! file_path "." = None /\
  main no_parser class_name "." false untouched ∅ =
    mkResult (Returned tt)
      [ st.error "Excel file not found at: ./Snacks_Fund.xlsx";
        st.info "Please ensure the Excel file exists at the specified location.";
        st.info "Press Enter to exit..." ] ∅.
Proof.
  assert (H : (∅ : gmap path Sheet) !! file_path "." = None) by reflexivity.
  split; [exact H|].
  exact (missing_workbook_is_reported no_parser class_name "." false untouched ∅ H).
Defined.

(** The sheet with a text date under a parser that accepts no text. *)
Lemma text_date_page :
  (workbook "." sheet_with_a_text_date !! file_path "." = Some sheet_with_a_text_date /\
   forallb (pd.has_column sheet_with_a_text_date) required_columns = true /\
   map Date (rows sheet_with_a_text_date)
     = [Stamp (midnight 2024 1 1)] ++ Text "soon" :: [] /\
   Forall (fun c => exists t, pd.to_datetime_cell no_parser c = Returned t)
     [Stamp (midnight 2024 1 1)] /\
   no_parser "soon" = None) /\
  main no_parser class_name "." false untouched (workbook "." sheet_with_a_text_date) =
    mkResult (Returned tt)
      [ st.error "Error: ParserError"; st.info "Press Enter to exit..." ]
      (workbook "." sheet_with_a_text_date).
Proof.
  assert (Hfile : workbook "." sheet_with_a_text_date !! file_path "."
                  = Some sheet_with_a_text_date) by (vm_compute; reflexivity).
  assert (Hbefore : Forall (fun c => exists t, pd.to_datetime_cell no_parser c = Returned t)
                      [Stamp (midnight 2024 1 1)])
    by (constructor; [eexists; reflexivity | constructor]).
  split; [repeat split; try reflexivity; assumption|].
  exact (unparseable_date_fails_the_load no_parser class_name "." false
           sheet_with_a_text_date [Stamp (midnight 2024 1 1)] [] "soon" untouched _
           Hfile eq_refl eq_refl Hbefore eq_refl).
Defined.

(** Loading the scenario keeps its two rows. *)
Lemma load_of_the_scenario :
  outcome (load no_parser false (file_path ".") (workbook "." (written_sheet scenario)))
    = Returned (Some scenario) /\
  exists sheet,
    workbook "." (written_sheet scenario) !! file_path "." = Some sheet /\
    length (rows sheet) = length (rows scenario).
Proof.
  assert (H : outcome (load no_parser false (file_path ".")
                         (workbook "." (written_sheet scenario)))
              = Returned (Some scenario)) by (vm_compute; reflexivity).
  split; [exact H|].
  destruct (load_keeps_the_rows no_parser false (file_path ".") _ scenario H)
    as (sheet & Hfile & _ & Hrows & _).
  exists sheet. split; [exact Hfile|]. exact (Forall2_length _ _ _ Hrows).
Defined.

(** An export over an earlier export. *)
Lemma export_over_an_earlier_export :
  let fs := workbook "." (written_sheet scenario) in
  let earlier := <[export_path "." := sheet_without_rows]> fs in
  (export_click exporting_user = true /\
   shown_tables (rendered (main no_parser class_name "." false exporting_user fs)) <> []) /\
  files_after (main no_parser class_name "." false exporting_user earlier) =
  files_after (main no_parser class_name "." false exporting_user fs).
Proof.
  intros fs earlier.
  assert (H : shown_tables (rendered (main no_parser class_name "." false exporting_user fs))
              <> []) by (vm_compute; discriminate).
  split; [split; [reflexivity | exact H]|].
  exact (proj2 (export_overwrites_the_earlier_export no_parser class_name "." false
                  exporting_user sheet_without_rows fs eq_refl H)).
Defined.

(** February to January: no row of the scenario is shown. *)
Lemma inverted_range_on_the_scenario :
  date_le (mkdate 2024 2 1) (mkdate 2024 1 1) = false /\
  rows (filtered_df scenario (mkdate 2024 2 1) (mkdate 2024 1 1) "All" "All") = [].
Proof.
  split; [reflexivity|].
  exact (inverted_date_range_shows_no_row scenario (mkdate 2024 2 1) (mkdate 2024 1 1)
           "All" "All" eq_refl).
Defined.

(** Bob's row, shown for the second half of January, is shown for the
    whole month. *)
Lemma wider_range_on_the_scenario :
  let bob := mkRow (midnight 2024 1 15) "Bob" 30 0 70 in
  (date_le (mkdate 2024 1 1) (mkdate 2024 1 15) = true /\
   date_le (mkdate 2024 1 31) (mkdate 2024 1 31) = true /\
   In bob (rows (filtered_df scenario (mkdate 2024 1 15) (mkdate 2024 1 31) "All" "All"))) /\
  In bob (rows (filtered_df scenario (mkdate 2024 1 1) (mkdate 2024 1 31) "All" "All")).
Proof.
  intros bob.
  assert (H : In bob (rows (filtered_df scenario (mkdate 2024 1 15) (mkdate 2024 1 31)
                              "All" "All"))) by (now left).
  split; [repeat split; try reflexivity; exact H|].
  exact (wider_date_range_keeps_the_rows scenario (mkdate 2024 1 15) (mkdate 2024 1 31)
           (mkdate 2024 1 1) (mkdate 2024 1 31) "All" "All" bob eq_refl eq_refl H).
Defined.

(** The amounts of the scenario are small. *)
Lemma scenario_int64 : int64_amounts scenario.
Proof. repeat constructor; unfold int64; simpl; lia. Qed.

Lemma scenario_givers_fit :
  sum_over Contribution (List.filter (fun r => 0 <? Contribution r) (rows scenario))
    < 2 ^ 63.
Proof. vm_compute. reflexivity. Qed.

Lemma scenario_contributions_add_up : adds_up_in_int64 Contribution (rows scenario).
Proof. split; [repeat constructor; simpl; lia | vm_compute; reflexivity]. Qed.

(** The scenario has one bar, for the one contributor counted. *)
Lemma one_bar_on_the_scenario :
  (int64_amounts scenario /\
   sum_over Contribution (List.filter (fun r => 0 <? Contribution r) (rows scenario))
     < 2 ^ 63) /\
  length (contrib_by_person scenario) = valid_contributors scenario.
Proof.
  split; [split; [exact scenario_int64 | exact scenario_givers_fit]|].
  exact (one_bar_per_counted_contributor scenario scenario_int64 scenario_givers_fit).
Defined.

(** The bars of the scenario come in the order of the names. *)
Lemma entries_of_the_scenario :
  (int64_amounts scenario /\
   sum_over Contribution (List.filter (fun r => 0 <? Contribution r) (rows scenario))
     < 2 ^ 63) /\
  Sorted pd.string_le (map fst (contrib_by_person scenario)).
Proof.
  split; [split; [exact scenario_int64 | exact scenario_givers_fit]|].
  exact (proj1 (proj2 (contrib_by_person_entries scenario scenario_int64
                         scenario_givers_fit))).
Defined.

(** The bars of the scenario add up to 100. *)
Lemma bars_of_the_scenario :
  (int64_amounts scenario /\ adds_up_in_int64 Contribution (rows scenario)) /\
  sum_of snd (contrib_by_person scenario) = total_contributions scenario.
Proof.
  split; [split; [exact scenario_int64 | exact scenario_contributions_add_up]|].
  exact (bars_add_up_to_total_contributions scenario scenario_int64
           scenario_contributions_add_up).
Defined.


(** The monthly bars of the ledger with a gap add up to its totals. *)
Lemma monthly_bars_of_the_ledger_with_a_gap :
  (Forall (fun r => valid_date (ts_date (Date r))) (rows with_a_gap) /\
   int64_amounts with_a_gap /\
   adds_up_in_int64 Contribution (rows with_a_gap) /\
   adds_up_in_int64 Spend (rows with_a_gap)) /\
  sum_of pd.month_Contribution (monthly_data with_a_gap) = total_contributions with_a_gap /\
  sum_of pd.month_Spend (monthly_data with_a_gap) = total_spending with_a_gap.
Proof.
  assert (H : Forall (fun r => valid_date (ts_date (Date r))) (rows with_a_gap))
    by (repeat constructor; simpl; lia).
  assert (H64 : int64_amounts with_a_gap)
    by (repeat constructor; unfold int64; simpl; lia).
  assert (Hc : adds_up_in_int64 Contribution (rows with_a_gap))
    by (split; [repeat constructor; simpl; lia | vm_compute; reflexivity]).
  assert (Hs : adds_up_in_int64 Spend (rows with_a_gap))
    by (split; [repeat constructor; simpl; lia | vm_compute; reflexivity]).
  split; [exact (conj H (conj H64 (conj Hc Hs)))|].
  exact (monthly_data_adds_up_to_the_totals with_a_gap H H64 Hc Hs).
Defined.

(** The scenario under the launcher's script and under the dashboard. *)
Lemma launcher_and_dashboard_on_the_scenario :
  let fsL := launcher_workbook (written_sheet scenario) in
  let fsD := workbook "." (written_sheet scenario) in
  fsL !! Launcher.file_path = fsD !! file_path "." /\
  shown_tables (rendered (Launcher.script no_parser class_name untouched fsL)) =
  shown_tables (rendered (main no_parser class_name "." false untouched fsD)).
Proof.
  intros fsL fsD.
  assert (H : fsL !! Launcher.file_path = fsD !! file_path ".") by (vm_compute; reflexivity).
  split; [exact H|].
  exact (proj1 (launcher_script_agrees_with_the_dashboard no_parser class_name "." false
                  untouched fsL fsD H)).
Defined.

(** The launcher's script on the sheet without [Balance]. *)
Lemma launcher_script_without_Balance :
  (launcher_workbook sheet_without_Balance !! Launcher.file_path = Some sheet_without_Balance /\
   required_columns = ["Date"; "Contributors"; "Spend"; "Contribution"] ++ "Balance" :: [] /\
   forallb (pd.has_column sheet_without_Balance)
     ["Date"; "Contributors"; "Spend"; "Contribution"] = true /\
   pd.has_column sheet_without_Balance "Balance" = false) /\
  Launcher.script no_parser class_name untouched (launcher_workbook sheet_without_Balance) =
    mkResult (Returned tt)
      [st.error "Required column 'Balance' not found in Excel file"]
      (launcher_workbook sheet_without_Balance).
Proof.
  assert (Hfile : launcher_workbook sheet_without_Balance !! Launcher.file_path
                  = Some sheet_without_Balance) by (vm_compute; reflexivity).
  split; [repeat split; try reflexivity; exact Hfile|].
  exact (launcher_script_stops_at_the_first_missing_column no_parser class_name
           sheet_without_Balance ["Date"; "Contributors"; "Spend"; "Contribution"] []
           "Balance" untouched _ Hfile eq_refl eq_refl eq_refl).
Defined.

(** ** A ledger with rows is always shown *)

Section Shown.

Variable parse_datetime : string -> option Timestamp.
Variable str : Exception -> string.
Variable script_dir : string.
Variable interactive : bool.



End Shown.

